(** * Bus boarding sequence generator: a shallow embedding and its properties

    The development follows [src/boarding_sequence_generator.py].  The class
    [BusBoardingSequenceGenerator] owns one mutable field, [self.bookings];
    its methods are embedded as computations of a small state-and-exception
    monad over that field, so that what a method leaves in the field when it
    raises is part of the model.

    Conventions of the embedding:
    - a Python [int] is a [Z] (unbounded);
    - a Python [str] is a [string] whose characters are read as the code
      points 0..255; in that range the decimal digits matched by [\d] and
      accepted by [int()] are the ASCII digits; the white space removed by
      [str.strip()] is 9..13, 28..32, 133 and 160, the white space [int()]
      accepts around a literal is 9..13, 32, 133 and 160 only;
    - [int()] and [str()] raise [ValueError] beyond the interpreter's default
      limit of 4300 decimal digits;
    - a [dict] with integer keys is a [gmap Z _];
    - the file system is a function from paths to what [open] and
      [readlines] find there. *)

From Stdlib Require Import ZArith String Ascii List Permutation Lia.
From stdpp Require Import gmap strings list sorting.

Local Open Scope string_scope.
Local Open Scope list_scope.
Local Open Scope Z_scope.

(** ** Python strings *)

Module Py.

Definition ord (c : ascii) : N := N_of_ascii c.

(** [\d] of [re] and the digits of [int()], on code points below 256. *)
Definition isdecimal (c : ascii) : bool :=
  ((48 <=? ord c) && (ord c <=? 57))%N.

(** [str.isspace] on code points below 256. *)
Definition isspace (c : ascii) : bool :=
  (((9 <=? ord c) && (ord c <=? 13)) || ((28 <=? ord c) && (ord c <=? 32))
   || (ord c =? 133) || (ord c =? 160))%N.

Definition digit_value (c : ascii) : Z := Z.of_N (ord c) - 48.

Fixpoint lstrip (s : string) : string :=
  match s with
  | EmptyString => EmptyString
  | String c s' => if isspace c then lstrip s' else s
  end.

Fixpoint rstrip (s : string) : string :=
  match s with
  | EmptyString => EmptyString
  | String c s' =>
      match rstrip s' with
      | EmptyString => if isspace c then EmptyString else String c EmptyString
      | r => String c r
      end
  end.

(** [s.strip()] *)
Definition strip (s : string) : string := rstrip (lstrip s).

(** [s.split(sep)] for a one-character separator: never an empty list. *)
Fixpoint split (sep : ascii) (s : string) : list string :=
  match s with
  | EmptyString => [EmptyString]
  | String c s' =>
      if Ascii.eqb c sep then EmptyString :: split sep s'
      else match split sep s' with
           | [] => [String c EmptyString]
           | t :: ts => String c t :: ts
           end
  end.

(** [needle in hay] *)
Fixpoint contains (needle hay : string) : bool :=
  String.prefix needle hay
  || match hay with
     | EmptyString => false
     | String _ hay' => contains needle hay'
     end.

(** Text mode with universal newlines: "\r\n" and a lone "\r" are read as
    "\n". *)
Fixpoint translate_newlines (s : string) : string :=
  match s with
  | EmptyString => EmptyString
  | String c s' =>
      if Ascii.eqb c "013" then
        String "010"
          match s' with
          | String c' s'' =>
              if Ascii.eqb c' "010" then translate_newlines s''
              else translate_newlines s'
          | EmptyString => EmptyString
          end
      else String c (translate_newlines s')
  end.

(** Lines of a text, each keeping its final "\n". *)
Fixpoint keepends (s : string) : list string :=
  match s with
  | EmptyString => []
  | String c s' =>
      if Ascii.eqb c "010" then String c EmptyString :: keepends s'
      else match keepends s' with
           | [] => [String c EmptyString]
           | l :: ls => String c l :: ls
           end
  end.

(** [file.readlines()] on the text of a file. *)
Definition readlines (text : string) : list string :=
  keepends (translate_newlines text).

(** The body of an integer literal after its sign: decimal digits, with
    single underscores allowed between two digits. *)
Fixpoint int_digits (s : string) (acc : Z) (after_digit : bool) : option Z :=
  match s with
  | EmptyString => if after_digit then Some acc else None
  | String c s' =>
      if isdecimal c then int_digits s' (10 * acc + digit_value c) true
      else if Ascii.eqb c "_" && after_digit then int_digits s' acc false
      else None
  end.

(** The white space [int()] skips around a literal: of the white space of
    [str.isspace], the code points 28..31 are not part of it. *)
Definition isspace_int (c : ascii) : bool :=
  (((9 <=? ord c) && (ord c <=? 13)) || (ord c =? 32)
   || (ord c =? 133) || (ord c =? 160))%N.

Fixpoint lstrip_int (s : string) : string :=
  match s with
  | EmptyString => EmptyString
  | String c s' => if isspace_int c then lstrip_int s' else s
  end.

Fixpoint rstrip_int (s : string) : string :=
  match s with
  | EmptyString => EmptyString
  | String c s' =>
      match rstrip_int s' with
      | EmptyString => if isspace_int c then EmptyString else String c EmptyString
      | r => String c r
      end
  end.

(** [sys.get_int_max_str_digits()], by default. *)
Definition int_max_str_digits : Z := 4300.

(** The number of decimal digits in a string. *)
Fixpoint count_digits (s : string) : Z :=
  match s with
  | EmptyString => 0
  | String c s' => (if isdecimal c then 1 else 0) + count_digits s'
  end.

(** The value [int(s)] returns, [None] where it raises [ValueError]: on a
    string that is not a literal, and on a literal with more digits than
    the limit. *)
Definition int_literal (s : string) : option Z :=
  match rstrip_int (lstrip_int s) with
  | EmptyString => None
  | String c r =>
      let signed := Ascii.eqb c "+" || Ascii.eqb c "-" in
      if int_max_str_digits <? count_digits (if signed then r else String c r)
      then None
      else if Ascii.eqb c "+" then int_digits r 0 false
      else if Ascii.eqb c "-" then Z.opp <$> int_digits r 0 false
      else int_digits (String c r) 0 false
  end.

(** [re.search(r'(\d+)', s)]: the leftmost match of a greedy [\d+], that is
    the first maximal run of digits; [None] when [s] has no digit. *)
Fixpoint take_digits (s : string) : string :=
  match s with
  | EmptyString => EmptyString
  | String c s' => if isdecimal c then String c (take_digits s') else EmptyString
  end.

Fixpoint search_digits (s : string) : option string :=
  match s with
  | EmptyString => None
  | String c s' => if isdecimal c then Some (take_digits s) else search_digits s'
  end.

(** [enumerate(l, start)] *)
Fixpoint enumerate {A : Type} (start : Z) (l : list A) : list (Z * A) :=
  match l with
  | [] => []
  | x :: l' => (start, x) :: enumerate (start + 1) l'
  end.

(** The order of Python on pairs of integers: the first components decide
    unless they are equal. *)
Definition tuple_lt (a b : Z * Z) : bool :=
  (if a.1 =? b.1 then a.2 <? b.2 else a.1 <? b.1)%Z.

(** [sorted(l, key=key)] is a stable sort that compares keys with [<].  Stable
    insertion gives the same list: an element goes in front of the first
    later element whose key is not smaller than its own. *)
Section Sorted.
Context {A : Type} (key : A -> Z * Z).

Fixpoint insert_sorted (x : A) (l : list A) : list A :=
  match l with
  | [] => [x]
  | y :: l' =>
      if tuple_lt (key y) (key x) then y :: insert_sorted x l'
      else x :: l
  end.

Fixpoint sorted (l : list A) : list A :=
  match l with
  | [] => []
  | x :: l' => insert_sorted x (sorted l')
  end.
End Sorted.

(** The character of a decimal digit [0 <= d <= 9]. *)
Definition digit_char (d : Z) : ascii := ascii_of_N (Z.to_N (48 + d)).

(** The decimal digits of [n >= 0], most significant first, put in front of
    [acc]; [fuel] bounds the number of digits. *)
Fixpoint str_digits (fuel : nat) (n : Z) (acc : string) : string :=
  match fuel with
  | O => acc
  | S fuel' =>
      let acc' := String (digit_char (n mod 10)) acc in
      if n <? 10 then acc' else str_digits fuel' (n / 10) acc'
  end.

(** The decimal text of an integer [n], which [str(n)] and [f"{n}"] produce
    when they do not raise (see [str_] below): [n] has no more decimal
    digits than binary ones, which gives the fuel. *)
Definition str_int (n : Z) : string :=
  if n <? 0 then String "-" (str_digits (S (Z.to_nat (Z.log2 (- n)))) (- n) "")
  else str_digits (S (Z.to_nat (Z.log2 n))) n "".



(** [str.lower] on code points below 256: the letters A-Z and the accented
    capitals 192..222, the multiplication sign 215 apart, move 32 up. *)
Definition lower_char (c : ascii) : ascii :=
  if (((65 <=? ord c) && (ord c <=? 90))
      || ((192 <=? ord c) && (ord c <=? 222) && negb (ord c =? 215)))%N
  then ascii_of_N (ord c + 32)
  else c.

Fixpoint lower (s : string) : string :=
  match s with
  | EmptyString => EmptyString
  | String c s' => String (lower_char c) (lower s')
  end.

(** [s * n] *)
Fixpoint mul_str (s : string) (n : nat) : string :=
  match n with
  | O => EmptyString
  | S n' => s +:+ mul_str s n'
  end.

(** [s.rsplit(sep, 1)] for a one-character separator: [s] alone when it has
    no separator, else what is before and what is after the last one. *)
Fixpoint rsplit1 (sep : ascii) (s : string) : list string :=
  match s with
  | EmptyString => [EmptyString]
  | String c s' =>
      match rsplit1 sep s' with
      | [] => [String c EmptyString]
      | [tail] => if Ascii.eqb c sep then [EmptyString; tail] else [String c tail]
      | head :: rest => String c head :: rest
      end
  end.

End Py.

(** ** The data model *)

(** The dataclass [Booking]; [min_distance] holds the booking's priority. *)
Record Booking := {
  booking_id : Z;
  seats : list string;
  min_distance : Z
}.

(** An instance of [BusBoardingSequenceGenerator]: its only field. *)
Record BusBoardingSequenceGenerator := { bookings : list Booking }.

(** The dictionaries built by [get_boarding_details]. *)
Module Detail.
Record t := {
  sequence : Z;
  booking_id : Z;
  seats : list string;
  furthest_seat_distance : Z
}.
End Detail.

(** ** Exceptions and the file system *)

(** Failures of [open] and [readlines] other than a missing file. *)
Inductive io_failure :=
  | PermissionError
  | IsADirectoryError
  | UnicodeDecodeError
  | OtherOSError.

(** The exceptions the module can meet.  [ValueError_int literal] is the
    [ValueError] of [int(literal)], [ValueError_str n] the one of [str(n)]
    or of formatting [n].  [Exception_ cause] is the plain [Exception] built
    at line 85, whose text is "Error reading booking file: " followed by
    [str(cause)]; the cause is kept instead of its text. *)
Inductive exn :=
  | FileNotFoundError (msg : string)
  | IOFailure (k : io_failure)
  | ValueError_int (literal : string)
  | ValueError_str (n : Z)
  | ValueError_max
  | KeyError (key : Z)
  | Exception_ (cause : exn).

(** What [open(file_path, 'r')] followed by [readlines()] finds at a path. *)
Inductive file_entry :=
  | Absent
  | Unreadable (k : io_failure)
  | Readable (text : string).

(** ** The monad of methods: state [self], results or raised exceptions *)

Inductive outcome (A : Type) :=
  | Return (a : A)
  | Raise (e : exn).
Arguments Return {A} a.
Arguments Raise {A} e.

Definition M (A : Type) : Type :=
  BusBoardingSequenceGenerator -> outcome A * BusBoardingSequenceGenerator.

Definition ret {A : Type} (a : A) : M A := fun self => (Return a, self).

Definition raise {A : Type} (e : exn) : M A := fun self => (Raise e, self).

Definition bind {A B : Type} (m : M A) (k : A -> M B) : M B :=
  fun self =>
    match m self with
    | (Return a, self') => k a self'
    | (Raise e, self') => (Raise e, self')
    end.

(** [try: body except ...: handler]; the state reached when the exception was
    raised is the one the handler starts from. *)
Definition try_except {A : Type} (body : M A) (handler : exn -> M A) : M A :=
  fun self =>
    match body self with
    | (Return a, self') => (Return a, self')
    | (Raise e, self') => handler e self'
    end.

Declare Scope py_scope.
Delimit Scope py_scope with py.
Notation "'let!' x ':=' m 'in' k" := (bind m (fun x => k))
  (at level 10, x pattern, m at level 100, k at level 200) : py_scope.
Notation "m '>>' k" := (bind m (fun _ => k))
  (at level 100, k at level 200, right associativity) : py_scope.
Local Open Scope py_scope.

(** [self.bookings], [self.bookings = bs], [self.bookings.append(b)] *)
Definition get_bookings : M (list Booking) :=
  fun self => (Return (bookings self), self).

Definition set_bookings (bs : list Booking) : M unit :=
  fun _ => (Return tt, {| bookings := bs |}).

Definition append_booking (b : Booking) : M unit :=
  fun self => (Return tt, {| bookings := bookings self ++ [b] |}).

(** [for x in l: body] *)
Fixpoint for_each {A : Type} (body : A -> M unit) (l : list A) : M unit :=
  match l with
  | [] => ret tt
  | x :: l' => body x >> for_each body l'
  end.

(** [[f(x) for x in l]] *)
Fixpoint comprehension {A B : Type} (f : A -> M B) (l : list A) : M (list B) :=
  match l with
  | [] => ret []
  | x :: l' =>
      let! y := f x in
      let! ys := comprehension f l' in
      ret (y :: ys)
  end.

(** [int(s)]: the value of the literal, or the [ValueError] of [int()]. *)
Definition int_ (s : string) : M Z :=
  match Py.int_literal s with
  | Some n => ret n
  | None => raise (ValueError_int s)
  end.

(** [str(n)] and the formatting of [n] in an f-string: the decimal text,
    unless it has more digits than the limit. *)
Definition str_ (n : Z) : M string :=
  if Py.int_max_str_digits <? Py.count_digits (Py.str_int n)
  then raise (ValueError_str n)
  else ret (Py.str_int n).

(** [max(l)] *)
Definition max_ (l : list Z) : M Z :=
  match l with
  | [] => raise ValueError_max
  | x :: l' => ret (foldl Z.max x l')
  end.

(** [d[k]] *)
Definition getitem {V : Type} (d : gmap Z V) (k : Z) : M V :=
  match d !! k with
  | Some v => ret v
  | None => raise (KeyError k)
  end.

(** ** The methods of [BusBoardingSequenceGenerator] *)

(** Lines 33-47. *)
Definition parse_seat_distance (seat : string) : M Z :=
  match Py.search_digits seat with
  | Some group1 => int_ group1
  | None => ret 0
  end.

(** Lines 76-77 and 100-101, the same in both loaders: the reduction of a
    seat list to a priority, [max(distances) if distances else 0]. *)
Definition furthest_distance (seats : list string) : M Z :=
  let! distances := comprehension parse_seat_distance seats in
  match distances with
  | [] => ret 0
  | _ :: _ => max_ distances
  end.

(** Lines 73-80 and 97-104, the same in both loaders: from an identifier and
    a comma-separated seat string to a booking appended to [self.bookings]. *)
Definition add_booking (booking_id : Z) (seats_string : string) : M unit :=
  let seats := map Py.strip (Py.split "," seats_string) in
  let! min_distance := furthest_distance seats in
  append_booking
    {| booking_id := booking_id; seats := seats; min_distance := min_distance |}.

(** Lines 87-104. *)
Definition load_bookings_from_data (booking_data : list (Z * string)) : M unit :=
  set_bookings [] >>
  for_each (fun '(booking_id, seats_string) => add_booking booking_id seats_string)
    booking_data.

(** Lines 66-80, the body of the loop over the lines of the file. *)
Definition load_line (line : string) : M unit :=
  let line := Py.strip line in
  match line with
  | EmptyString => ret tt
  | _ =>
      match Py.split "009" line with
      | part0 :: part1 :: _ =>
          let! booking_id := int_ part0 in
          add_booking booking_id part1
      | _ => ret tt
      end
  end.

(** Line 63. *)
Definition start_idx (lines : list string) : nat :=
  match lines with
  | line0 :: _ => if Py.contains "Booking_ID" line0 then 1%nat else 0%nat
  | [] => 0%nat
  end.

(** Lines 59-60. *)
Definition open_readlines (fs : string -> file_entry) (file_path : string)
  : M (list string) :=
  match fs file_path with
  | Absent => raise (FileNotFoundError "No such file or directory")
  | Unreadable k => raise (IOFailure k)
  | Readable text => ret (Py.readlines text)
  end.

(** Lines 49-85. *)
Definition load_bookings_from_file (fs : string -> file_entry) (file_path : string)
  : M unit :=
  set_bookings [] >>
  try_except
    (let! lines := open_readlines fs file_path in
     for_each load_line (drop (start_idx lines) lines))
    (fun e =>
       match e with
       | FileNotFoundError _ =>
           raise (FileNotFoundError (String.append "Booking file not found: " file_path))
       | _ => raise (Exception_ e)
       end).

(** The key of line 119. *)
Definition sort_key (x : Booking) : Z * Z := (- min_distance x, booking_id x).

(** Lines 106-127. *)
Definition generate_boarding_sequence : M (list (Z * Z)) :=
  let! bs := get_bookings in
  match bs with
  | [] => ret []
  | _ :: _ =>
      let sorted_bookings := Py.sorted sort_key bs in
      ret (map (fun '(i, booking) => (i, booking_id booking))
             (Py.enumerate 1 sorted_bookings))
  end.

(** Lines 129-150. *)
Definition get_boarding_details : M (list Detail.t) :=
  let! sequence := generate_boarding_sequence in
  let! bs := get_bookings in
  let booking_dict : gmap Z Booking :=
    foldl (fun d b => <[booking_id b := b]> d) ∅ bs in
  comprehension
    (fun '(seq_num, booking_id) =>
       let! booking := getitem booking_dict booking_id in
       ret {| Detail.sequence := seq_num;
              Detail.booking_id := booking_id;
              Detail.seats := seats booking;
              Detail.furthest_seat_distance := min_distance booking |})
    sequence.

(** A fresh instance, as [__init__] leaves it. *)
Definition init : BusBoardingSequenceGenerator := {| bookings := [] |}.




(** [f"{seq_num}\t{booking_id}\n"], line 173. *)
Definition format_entry (seq_num booking_id : Z) : M string :=
  let! number := str_ seq_num in
  let! identifier := str_ booking_id in
  ret (number +:+ String "009" "" +:+ identifier +:+ String "010" "").

(** Lines 172-173, the loop of [file.write]: [file] is the text written so
    far; it is returned beside the outcome, since what was written before
    an exception stays in the file. *)
Fixpoint write_entries (sequence : list (Z * Z)) (file : string)
    (self : BusBoardingSequenceGenerator)
  : (outcome unit * BusBoardingSequenceGenerator) * string :=
  match sequence with
  | [] => ((Return tt, self), file)
  | (seq_num, booking_id) :: sequence' =>
      match format_entry seq_num booking_id self with
      | (Return line, self') => write_entries sequence' (file +:+ line) self'
      | (Raise e, self') => ((Raise e, self'), file)
      end
  end.

(** Lines 161-173.  [open_w] tells what [open(output_path, 'w')] raises, if
    anything.  Beside the outcome comes what the method did to the file:
    [None] when it was not opened, [Some text] when it was created or
    emptied and holds [text] once the [with] block is left. *)
Definition export_to_file (open_w : string -> option exn) (output_path : string)
    (self : BusBoardingSequenceGenerator)
  : (outcome unit * BusBoardingSequenceGenerator) * option string :=
  match generate_boarding_sequence self with
  | (Return sequence, self') =>
      match open_w output_path with
      | Some e => ((Raise e, self'), None)
      | None =>
          let '(result, file) :=
            write_entries sequence
              ("Seq" +:+ String "009" "" +:+ "Booking_ID" +:+ String "010" "") self' in
          (result, Some file)
      end
  | (Raise e, self') => ((Raise e, self'), None)
  end.

(** ** The upload filter of [web_ui/app.py] *)

(** Line 17. *)
Definition ALLOWED_EXTENSIONS : gset string := {[ "txt"; "csv"; "tsv" ]}.

(** Lines 20-23; [None] stands for the [IndexError] of [[1]] on a list of
    one element. *)
Definition allowed_file (filename : string) : option bool :=
  if Py.contains "." filename then
    match Py.rsplit1 "." filename !! 1%nat with
    | Some extension => Some (bool_decide (Py.lower extension ∈ ALLOWED_EXTENSIONS))
    | None => None
    end
  else Some false.

(** ** Vocabulary of the specification *)

(** The string has a decimal digit somewhere. *)
Fixpoint has_digit (s : string) : bool :=
  match s with
  | EmptyString => false
  | String c s' => Py.isdecimal c || has_digit s'
  end.

(** The string is made of decimal digits only. *)
Fixpoint all_digits (s : string) : bool :=
  match s with
  | EmptyString => true
  | String c s' => Py.isdecimal c && all_digits s'
  end.

(** The string begins with a decimal digit. *)
Definition starts_with_digit (s : string) : bool :=
  match s with
  | EmptyString => false
  | String c _ => Py.isdecimal c
  end.

(** The number a run of digits denotes in base ten, most significant digit
    first, continuing from [acc]. *)
Fixpoint decimal_from (acc : Z) (run : string) : Z :=
  match run with
  | EmptyString => acc
  | String c run' => decimal_from (10 * acc + Py.digit_value c) run'
  end.

Definition decimal_value (run : string) : Z := decimal_from 0 run.

(** [m] is the greatest element of [l]. *)
Definition is_maximum (m : Z) (l : list Z) : Prop :=
  m ∈ l /\ Forall (fun x => x <= m) l.

(** [a] may board before [b]: further seat first, lower identifier first among
    equal priorities. *)
Definition boards_before (a b : Booking) : Prop :=
  min_distance a > min_distance b
  \/ (min_distance a = min_distance b /\ booking_id a <= booking_id b).

(** The list [generate_boarding_sequence] numbers (lines 117-120). *)
Definition sorted_bookings (self : BusBoardingSequenceGenerator) : list Booking :=
  Py.sorted sort_key (bookings self).

(** The entry of [get_boarding_details] for a booking at a sequence number. *)
Definition detail_of (seq_num : Z) (b : Booking) : Detail.t :=
  {| Detail.sequence := seq_num;
     Detail.booking_id := booking_id b;
     Detail.seats := seats b;
     Detail.furthest_seat_distance := min_distance b |}.

(** The records of a file: its lines after the header, if it has one. *)
Definition records (text : string) : list string :=
  let lines := Py.readlines text in drop (start_idx lines) lines.

(** The tab-separated fields the loader sees in a line: those of the line
    once stripped (lines 66 and 70). *)
Definition fields (line : string) : list string := Py.split "009" (Py.strip line).

(** How many times a character occurs in a string. *)
Fixpoint occurrences (c : ascii) (s : string) : nat :=
  match s with
  | EmptyString => 0%nat
  | String d s' => ((if Ascii.eqb d c then 1 else 0) + occurrences c s')%nat
  end.

(** The distance [parse_seat_distance] returns for a seat label, when it
    returns. *)
Definition seat_distance (seat : string) : Z :=
  match Py.search_digits seat with
  | Some run => decimal_value run
  | None => 0
  end.

(** The priority the reduction returns for a seat list, when every seat
    parses. *)
Definition priority_of (seats : list string) : Z :=
  match map seat_distance seats with
  | [] => 0
  | d :: ds => foldl Z.max d ds
  end.

(** The booking both loaders build from an identifier and a seat string,
    when every seat parses. *)
Definition booking_of (booking_id : Z) (seats_string : string) : Booking :=
  let seats := map Py.strip (Py.split "," seats_string) in
  {| booking_id := booking_id; seats := seats; min_distance := priority_of seats |}.

(** [ds] lists, seat by seat, what [parse_seat_distance] returns on [seats]. *)
Definition parsed_distances (seats : list string) (ds : list Z) : Prop :=
  Forall2 (fun seat d => forall self, parse_seat_distance seat self = (Return d, self))
    seats ds.

(** The priority of a booking is the greatest parsed distance of its seats,
    and 0 when it has no seat. *)
Definition priority_is_furthest (b : Booking) : Prop :=
  exists ds,
    parsed_distances (seats b) ds
    /\ (ds = [] -> min_distance b = 0)
    /\ (ds <> [] -> is_maximum (min_distance b) ds).

(** [x] is not after [y] in the order of their keys. *)
Definition key_le {A : Type} (key : A -> Z * Z) (x y : A) : Prop :=
  Py.tuple_lt (key y) (key x) = false.

(** The string is made of white space only. *)
Fixpoint all_space (s : string) : bool :=
  match s with
  | EmptyString => true
  | String c s' => Py.isspace c && all_space s'
  end.

(** A seat string that fits in the second column of a line of a file: not
    blank, and without tab, line feed or carriage return. *)
Definition fits_in_column (s : string) : Prop :=
  all_space s = false
  /\ occurrences "009" s = 0%nat
  /\ occurrences "010" s = 0%nat
  /\ occurrences "013" s = 0%nat.

(** The line of a file for an identifier and a seat string, and the text of
    the lines for a list of such pairs. *)
Definition record_line (i : Z) (s : string) : string :=
  Py.str_int i +:+ String "009" (s +:+ String "010" "").

Fixpoint table_text (rows : list (Z * string)) : string :=
  match rows with
  | [] => EmptyString
  | (i, s) :: rows' => record_line i s +:+ table_text rows'
  end.

(** The first run of digits of a seat label, if it has one, is within the
    limit of [int()]. *)
Definition within_limit (seat : string) : bool :=
  match Py.search_digits seat with
  | Some run => Z.of_nat (String.length run) <=? Py.int_max_str_digits
  | None => true
  end.

(** Every seat label of a comma-separated seat string is within the limit. *)
Definition seats_within_limit (seats_string : string) : bool :=
  forallb within_limit (map Py.strip (Py.split "," seats_string)).

(** A booking as the loaders build them: from an identifier and a seat
    string whose seat labels all parse. *)
Definition built_by_loader (b : Booking) : Prop :=
  exists i s, seats_within_limit s = true /\ b = booking_of i s.

(** The decimal text of an integer is within the limit of [str()]. *)
Definition formats (n : Z) : Prop := Z.abs n < 10 ^ Py.int_max_str_digits.

(** A pair whose line the file loader reads back: the seat string fits in
    a column, the text of the identifier is within the limit of [int()], and
    so are the digits of every seat label. *)
Definition row_loads (row : Z * string) : Prop :=
  fits_in_column row.2 /\ formats row.1 /\ seats_within_limit row.2 = true.

(** How a loop over the entries of the ordering that formats each entry ends
    (lines 158-159 and 172-173): [handled] are the entries it has dealt
    with, all of them when it returns, and when it raises those before the
    first entry with a number that does not format, the sequence number
    being formatted before the identifier. *)
Definition stops_at (sequence handled : list (Z * Z)) (o : outcome unit) : Prop :=
  (o = Return tt /\ handled = sequence)
  \/ (exists k i rest n,
        sequence = handled ++ (k, i) :: rest
        /\ o = Raise (ValueError_str n)
        /\ ((~ formats k /\ n = k) \/ (formats k /\ ~ formats i /\ n = i))).

(** ** Sample inputs *)

(** A seat label of 4301 digits, one more than [int()] takes:
    ['1' + '0' * 4300]. *)
Definition long_seat : string := String "1" (Py.mul_str "0" 4300).

(** The collection of the tie-break scenario: 105 and 101 at distance 10,
    120 at distance 20. *)
Definition tie_break_collection : BusBoardingSequenceGenerator :=
  {| bookings :=
       [ {| booking_id := 105; seats := ["A10"; "B10"]; min_distance := 10 |};
         {| booking_id := 101; seats := ["A10"; "C10"]; min_distance := 10 |};
         {| booking_id := 120; seats := ["A20"; "C2"]; min_distance := 20 |} ] |}.

Definition tab : string := String "009" "".
Definition newline : string := String "010" "".

(** The texts of three files: a good record followed by a record whose
    identifier is not an integer; a line without a tab between two good
    records; the same two good records alone. *)
Definition broken_text : string :=
  "101" +:+ tab +:+ "A1" +:+ newline +:+ "abc" +:+ tab +:+ "B2" +:+ newline.

Definition short_text : string :=
  "101" +:+ tab +:+ "A1" +:+ newline +:+ "no tab here" +:+ newline
  +:+ "120" +:+ tab +:+ "A20,C2" +:+ newline.

Definition plain_text : string :=
  "101" +:+ tab +:+ "A1" +:+ newline +:+ "120" +:+ tab +:+ "A20,C2" +:+ newline.

(** A file system with these three files and one that cannot be opened;
    nothing else exists. *)
Definition sample_files (file_path : string) : file_entry :=
  if String.eqb file_path "broken.txt" then Readable broken_text
  else if String.eqb file_path "short.txt" then Readable short_text
  else if String.eqb file_path "plain.txt" then Readable plain_text
  else if String.eqb file_path "locked.txt" then Unreadable PermissionError
  else Absent.

(** * Properties *)

(** ** Characters and strings *)

Lemma isdecimal_bounds c :
  Py.isdecimal c = true -> (48 <= Py.ord c <= 57)%N.
Proof.
  unfold Py.isdecimal. intros H.
  apply andb_true_iff in H as [H1 H2].
  apply N.leb_le in H1. apply N.leb_le in H2. lia.
Qed.

Lemma isdecimal_not_space c : Py.isdecimal c = true -> Py.isspace c = false.
Proof.
  intros H. apply isdecimal_bounds in H. unfold Py.isspace.
  repeat match goal with
         | |- context [(?a <=? ?b)%N] => destruct (N.leb_spec a b)
         | |- context [(?a =? ?b)%N] => destruct (N.eqb_spec a b)
         end; simpl; try reflexivity; lia.
Qed.

Lemma isdecimal_not_char c (d : ascii) :
  (Py.ord d < 48 \/ 57 < Py.ord d)%N ->
  Py.isdecimal c = true -> Ascii.eqb c d = false.
Proof.
  intros Hd H. apply isdecimal_bounds in H.
  destruct (Ascii.eqb_spec c d) as [->|]; [lia | reflexivity].
Qed.

Lemma digit_value_bounds c : Py.isdecimal c = true -> 0 <= Py.digit_value c <= 9.
Proof. intros H. apply isdecimal_bounds in H. unfold Py.digit_value. lia. Qed.

Lemma lstrip_digit s : starts_with_digit s = true -> Py.lstrip s = s.
Proof.
  destruct s as [|c s]; simpl; [done|].
  intros H. by rewrite (isdecimal_not_space c H).
Qed.

Lemma rstrip_digits s : all_digits s = true -> Py.rstrip s = s.
Proof.
  induction s as [|c s IH]; simpl; [done|].
  intros [Hc Hs]%andb_true_iff. rewrite (IH Hs).
  destruct s; [by rewrite (isdecimal_not_space c Hc) | done].
Qed.

Lemma all_digits_starts s :
  all_digits s = true -> s <> "" -> starts_with_digit s = true.
Proof. destruct s; simpl; [done|]. by intros [? ?]%andb_true_iff. Qed.

Lemma strip_digits s : all_digits s = true -> Py.strip s = s.
Proof.
  intros H. unfold Py.strip. destruct s as [|c s]; [done|].
  rewrite lstrip_digit; [by apply rstrip_digits | by apply all_digits_starts].
Qed.

Lemma int_digits_all_digits s acc b :
  all_digits s = true -> s <> "" \/ b = true ->
  Py.int_digits s acc b = Some (decimal_from acc s).
Proof.
  revert acc b. induction s as [|c s IH]; simpl; intros acc b H Hne.
  - destruct Hne as [? | ->]; done.
  - apply andb_true_iff in H as [Hc Hs]. rewrite Hc. apply IH; auto.
Qed.

Lemma isdecimal_not_space_int c :
  Py.isdecimal c = true -> Py.isspace_int c = false.
Proof.
  intros H. apply isdecimal_bounds in H. unfold Py.isspace_int.
  repeat match goal with
         | |- context [(?a <=? ?b)%N] => destruct (N.leb_spec a b)
         | |- context [(?a =? ?b)%N] => destruct (N.eqb_spec a b)
         end; simpl; try reflexivity; lia.
Qed.

Lemma lstrip_int_digit s : starts_with_digit s = true -> Py.lstrip_int s = s.
Proof.
  destruct s as [|c s]; simpl; [done|].
  intros H. by rewrite (isdecimal_not_space_int c H).
Qed.

Lemma rstrip_int_digits s : all_digits s = true -> Py.rstrip_int s = s.
Proof.
  induction s as [|c s IH]; simpl; [done|].
  intros [Hc Hs]%andb_true_iff. rewrite (IH Hs).
  destruct s; [by rewrite (isdecimal_not_space_int c Hc) | done].
Qed.

Lemma count_digits_all_digits s :
  all_digits s = true -> Py.count_digits s = Z.of_nat (String.length s).
Proof.
  induction s as [|c s IH]; simpl; [done|].
  intros [Hc Hs]%andb_true_iff. rewrite Hc, (IH Hs). lia.
Qed.

(** [int()] on a run of digits: its value, unless the run is longer than
    the limit. *)
Lemma int_literal_digits s :
  all_digits s = true -> s <> "" ->
  Py.int_literal s
  = if Py.int_max_str_digits <? Z.of_nat (String.length s) then None
    else Some (decimal_value s).
Proof.
  intros H Hne. unfold Py.int_literal.
  rewrite lstrip_int_digit by by apply all_digits_starts.
  rewrite rstrip_int_digits by done.
  destruct s as [|c s]; [done|].
  pose proof H as [Hc _]%andb_true_iff.
  rewrite (isdecimal_not_char c "+"), (isdecimal_not_char c "-")
    by (assumption || (left; reflexivity)).
  cbv [orb]. rewrite count_digits_all_digits by done.
  destruct (_ <? _); [done|].
  apply int_digits_all_digits; auto.
Qed.

Lemma decimal_from_nonneg s acc :
  0 <= acc -> all_digits s = true -> 0 <= decimal_from acc s.
Proof.
  revert acc. induction s as [|c s IH]; simpl; intros acc Hacc H; [done|].
  apply andb_true_iff in H as [Hc Hs]. apply IH; [|done].
  pose proof (digit_value_bounds c Hc). lia.
Qed.

Lemma take_digits_all s : all_digits (Py.take_digits s) = true.
Proof.
  induction s as [|c s IH]; simpl; [done|].
  destruct (Py.isdecimal c) eqn:Hc; simpl; [by rewrite Hc | done].
Qed.

Lemma take_digits_run run post :
  all_digits run = true -> starts_with_digit post = false ->
  Py.take_digits (run +:+ post) = run.
Proof.
  intros Hrun Hpost. induction run as [|c run IH]; simpl in *.
  - destruct post; simpl in *; [done | by rewrite Hpost].
  - apply andb_true_iff in Hrun as [Hc Hrun]. rewrite Hc. f_equal. by apply IH.
Qed.

Lemma search_digits_skip pre rest :
  has_digit pre = false -> Py.search_digits (pre +:+ rest) = Py.search_digits rest.
Proof.
  induction pre as [|c pre IH]; simpl; [done|].
  intros [Hc Hpre]%orb_false_iff. rewrite Hc. by apply IH.
Qed.

Lemma search_digits_run run post :
  all_digits run = true -> run <> "" -> starts_with_digit post = false ->
  Py.search_digits (run +:+ post) = Some run.
Proof.
  intros Hrun Hne Hpost. destruct run as [|c run]; [done|].
  pose proof Hrun as [Hc _]%andb_true_iff.
  change (Py.search_digits (String c run +:+ post))
    with (if Py.isdecimal c then Some (Py.take_digits (String c run +:+ post))
          else Py.search_digits (run +:+ post)).
  rewrite Hc. f_equal. by apply take_digits_run.
Qed.

Lemma search_digits_Some s run :
  Py.search_digits s = Some run -> all_digits run = true /\ run <> "".
Proof.
  induction s as [|c s IH]; [done|].
  change (Py.search_digits (String c s))
    with (if Py.isdecimal c then Some (Py.take_digits (String c s))
          else Py.search_digits s).
  destruct (Py.isdecimal c) eqn:Hc; [|done].
  clear IH. intros [= <-]. split; [apply (take_digits_all (String c s))|].
  simpl. by rewrite Hc.
Qed.

Lemma search_digits_None s : has_digit s = false -> Py.search_digits s = None.
Proof.
  induction s as [|c s IH]; simpl; [done|].
  intros [Hc Hs]%orb_false_iff. rewrite Hc. by apply IH.
Qed.

(** Every string with a digit splits around its first maximal run of digits. *)
Lemma first_run_exists s :
  has_digit s = true ->
  exists pre run post,
    s = pre +:+ run +:+ post /\ has_digit pre = false /\ all_digits run = true
    /\ run <> "" /\ starts_with_digit post = false.
Proof.
  induction s as [|c s IH]; simpl; [done|].
  destruct (Py.isdecimal c) eqn:Hc; simpl.
  - intros _. clear IH.
    assert (exists run post, s = run +:+ post /\ all_digits run = true
                             /\ starts_with_digit post = false) as (run & post & -> & Hr & Hp).
    { clear. induction s as [|d s (run & post & -> & Hr & Hp)]; [by exists "", ""|].
      destruct (Py.isdecimal d) eqn:Hd.
      - exists (String d run), post. simpl. by rewrite Hd.
      - exists "", (String d (run +:+ post)). by simpl. }
    exists "", (String c run), post. simpl. by rewrite Hc.
  - intros (pre & run & post & -> & Hpre & Hrun & Hne & Hpost)%IH.
    exists (String c pre), run, post. simpl. by rewrite Hc.
Qed.

(** ** The seat-distance parser *)

Lemma parse_seat_distance_returns seat self :
  within_limit seat = true ->
  parse_seat_distance seat self = (Return (seat_distance seat), self).
Proof.
  unfold parse_seat_distance, seat_distance, within_limit.
  destruct (Py.search_digits seat) as [run|] eqn:Hs; [|done].
  apply search_digits_Some in Hs as [Hrun Hne]. intros Hlimit%Z.leb_le.
  unfold int_. rewrite (int_literal_digits run Hrun Hne).
  by destruct (Z.ltb_spec Py.int_max_str_digits (Z.of_nat (String.length run))); [lia|].
Qed.

(** On a seat label whose first run of digits is longer than the limit the
    parser raises the [ValueError] of [int()] on that run. *)
Lemma parse_seat_distance_raises seat self :
  within_limit seat = false ->
  exists run,
    Py.search_digits seat = Some run
    /\ all_digits run = true
    /\ Py.int_max_str_digits < Z.of_nat (String.length run)
    /\ Py.int_literal run = None
    /\ parse_seat_distance seat self = (Raise (ValueError_int run), self).
Proof.
  unfold parse_seat_distance, within_limit.
  destruct (Py.search_digits seat) as [run|] eqn:Hs; [|done].
  apply search_digits_Some in Hs as [Hrun Hne]. intros Hlimit%Z.leb_gt.
  assert (Py.int_literal run = None) as Hint.
  { rewrite (int_literal_digits run Hrun Hne).
    by destruct (Z.ltb_spec Py.int_max_str_digits (Z.of_nat (String.length run)));
      [|lia]. }
  exists run. unfold int_. by rewrite Hint.
Qed.

Lemma seat_distance_nonneg seat : 0 <= seat_distance seat.
Proof.
  unfold seat_distance. destruct (Py.search_digits seat) as [run|] eqn:Hs; [|done].
  apply search_digits_Some in Hs as [Hrun _]. by apply decimal_from_nonneg.
Qed.

Lemma within_limit_run pre run post :
  has_digit pre = false -> all_digits run = true -> run <> "" ->
  starts_with_digit post = false ->
  within_limit (pre +:+ run +:+ post)
  = (Z.of_nat (String.length run) <=? Py.int_max_str_digits).
Proof.
  intros Hpre Hrun Hne Hpost. unfold within_limit.
  by rewrite search_digits_skip, search_digits_run.
Qed.

(** Against C2 as stated: on a seat label of 4301 digits the parser raises
    the [ValueError] of [int()], so it does not return for every string. *)
Lemma parse_seat_distance_long_run :
  parse_seat_distance long_seat init = (Raise (ValueError_int long_seat), init)
  /\ ~ (forall seat self, exists n, parse_seat_distance seat self = (Return n, self)).
Proof.
  assert (parse_seat_distance long_seat init
          = (Raise (ValueError_int long_seat), init)) as Hlong
    by (vm_compute; reflexivity).
  split; [exact Hlong|].
  intros Hall. destruct (Hall long_seat init) as [n Hn].
  rewrite Hlong in Hn. discriminate Hn.
Qed.

(** C2, as the code has it: for every string whose first maximal run of
    decimal digits (the run after a digit-free prefix, ended by the end of
    the string or a non-digit) has at most 4300 digits, the parser returns
    the value of that run, and it returns 0 when the string has no digit; on
    a longer run it raises the [ValueError] of [int()].  It does nothing
    else, and leaves the collection alone.  "A1", "B20", "", "ABC" and "123"
    give 1, 20, 0, 0 and 123. *)
Theorem parse_seat_distance_first_digit_run :
  (forall pre run post self,
      has_digit pre = false -> all_digits run = true -> run <> "" ->
      starts_with_digit post = false ->
      (Z.of_nat (String.length run) <= 4300 ->
       parse_seat_distance (pre +:+ run +:+ post) self
       = (Return (decimal_value run), self))
      /\ (4300 < Z.of_nat (String.length run) ->
          parse_seat_distance (pre +:+ run +:+ post) self
          = (Raise (ValueError_int run), self)))
  /\ (forall seat self,
        has_digit seat = false -> parse_seat_distance seat self = (Return 0, self))
  /\ (forall seat self,
        (exists n, 0 <= n /\ parse_seat_distance seat self = (Return n, self))
        \/ (exists run,
              all_digits run = true /\ 4300 < Z.of_nat (String.length run)
              /\ parse_seat_distance seat self = (Raise (ValueError_int run), self)))
  /\ (forall seat,
        has_digit seat = true ->
        exists pre run post,
          seat = pre +:+ run +:+ post /\ has_digit pre = false
          /\ all_digits run = true /\ run <> "" /\ starts_with_digit post = false)
  /\ (forall self,
        parse_seat_distance "A1" self = (Return 1, self)
        /\ parse_seat_distance "B20" self = (Return 20, self)
        /\ parse_seat_distance "" self = (Return 0, self)
        /\ parse_seat_distance "ABC" self = (Return 0, self)
        /\ parse_seat_distance "123" self = (Return 123, self)).
Proof.
  split; [|split; [|split; [|split]]].
  - intros pre run post self Hpre Hrun Hne Hpost.
    pose proof (within_limit_run pre run post Hpre Hrun Hne Hpost) as Hlimit.
    change Py.int_max_str_digits with 4300 in Hlimit. split.
    + intros Hshort. rewrite parse_seat_distance_returns.
      * unfold seat_distance. by rewrite search_digits_skip, search_digits_run.
      * rewrite Hlimit. by apply Z.leb_le.
    + intros Hlong.
      destruct (parse_seat_distance_raises (pre +:+ run +:+ post) self)
        as (run' & Hs & _ & _ & _ & ->).
      * rewrite Hlimit. by apply Z.leb_gt.
      * rewrite search_digits_skip, search_digits_run in Hs by done.
        by injection Hs as <-.
  - intros seat self H. rewrite parse_seat_distance_returns.
    + unfold seat_distance. by rewrite search_digits_None.
    + unfold within_limit. by rewrite search_digits_None.
  - intros seat self. destruct (within_limit seat) eqn:Hlimit.
    + left. exists (seat_distance seat).
      split; [apply seat_distance_nonneg | by apply parse_seat_distance_returns].
    + right. destruct (parse_seat_distance_raises seat self Hlimit)
        as (run & _ & Hrun & Hlong & _ & Hraise).
      by exists run.
  - apply first_run_exists.
  - intros self. repeat split; reflexivity.
Qed.

Lemma parse_seat_distance_first_digit_run_witness :
  parse_seat_distance "A20,C2" init = (Return 20, init)
  /\ parse_seat_distance "X" init = (Return 0, init).
Proof.
  destruct parse_seat_distance_first_digit_run as (Hrun & Hnone & _).
  split.
  - apply (Hrun "A" "20" ",C2" init);
      [reflexivity | reflexivity | discriminate | reflexivity | simpl; lia].
  - apply (Hnone "X" init). reflexivity.
Defined.

(** ** The monad *)

Lemma comprehension_returns {A B : Type} (f : A -> M B) (g : A -> B) l self :
  (forall x, x ∈ l -> forall self', f x self' = (Return (g x), self')) ->
  comprehension f l self = (Return (map g l), self).
Proof.
  induction l as [|x l IH]; intros Hf; simpl; [done|].
  unfold bind at 1. rewrite Hf by left.
  unfold bind at 1. rewrite IH; [done|].
  intros y Hy. apply Hf. by right.
Qed.

Lemma for_each_app {A : Type} (body : A -> M unit) l1 l2 self :
  for_each body (l1 ++ l2) self = (for_each body l1 >> for_each body l2) self.
Proof.
  revert self. induction l1 as [|x l1 IH]; intros self; simpl; [done|].
  unfold bind in *. destruct (body x self) as [[[]|e] self']; [|done].
  by rewrite IH.
Qed.

(** A property of [self] that every turn of a loop keeps holds when the loop
    ends, however it ends. *)
Lemma for_each_invariant {A : Type} (P : BusBoardingSequenceGenerator -> Prop)
    (body : A -> M unit) l self :
  (forall x self', P self' -> P (body x self').2) ->
  P self -> P (for_each body l self).2.
Proof.
  intros Hbody. revert self. induction l as [|x l IH]; intros self HP; simpl; [done|].
  unfold bind. specialize (Hbody x self HP).
  destruct (body x self) as [[[]|e] self']; simpl in *; auto.
Qed.

(** A loop that raises has run some turns to their end and raised in the
    next one. *)
Lemma for_each_raise {A : Type} (body : A -> M unit) l self e self' :
  for_each body l self = (Raise e, self') ->
  exists done_ x rest mid,
    l = done_ ++ x :: rest
    /\ for_each body done_ self = (Return tt, mid)
    /\ body x mid = (Raise e, self').
Proof.
  revert self. induction l as [|x l IH]; intros self; simpl; [done|].
  unfold bind. destruct (body x self) as [[[]|e0] self0] eqn:Hx.
  - intros (done_ & y & rest & mid & -> & Hdone & Hy)%IH.
    exists (x :: done_), y, rest, mid. simpl. unfold bind. rewrite Hx. done.
  - intros [= -> ->]. by exists [], x, l, self.
Qed.

(** ** The priority reduction *)

Lemma foldl_max_is_maximum d ds : is_maximum (foldl Z.max d ds) (d :: ds).
Proof.
  revert d. induction ds as [|x ds IH]; intros d; simpl.
  - split; [by left | by repeat constructor].
  - destruct (IH (Z.max d x)) as [Hin Hall]. split.
    + apply elem_of_cons in Hin as [Heq|Hin].
      * rewrite Heq. destruct (Z.max_spec d x) as [[_ ->]|[_ ->]];
          [right; left | left].
      * by do 2 right.
    + apply Forall_cons in Hall as [Hmax Hall].
      repeat constructor; [lia | lia | done].
Qed.

(** The comprehension of lines 76 and 100 returns the distances of the
    seats when every seat parses, and else raises the [ValueError] of the
    first seat that does not. *)
Lemma comprehension_parse_returns seats self :
  forallb within_limit seats = true ->
  comprehension parse_seat_distance seats self
  = (Return (map seat_distance seats), self).
Proof.
  intros Hall. apply comprehension_returns. intros seat Hseat self'.
  apply parse_seat_distance_returns.
  rewrite forallb_forall in Hall. apply Hall. by apply list_elem_of_In.
Qed.

Lemma comprehension_parse_raises seats self :
  forallb within_limit seats = false ->
  exists run,
    Py.int_literal run = None
    /\ comprehension parse_seat_distance seats self = (Raise (ValueError_int run), self).
Proof.
  induction seats as [|seat seats IH]; simpl; [done|].
  destruct (within_limit seat) eqn:Hseat; simpl.
  - intros (run & Hrun & Hraise)%IH. exists run. split; [done|].
    unfold bind at 1. rewrite parse_seat_distance_returns by done.
    unfold bind. by rewrite Hraise.
  - intros _. destruct (parse_seat_distance_raises seat self Hseat)
      as (run & _ & _ & _ & Hrun & Hraise).
    exists run. split; [done|]. unfold bind. by rewrite Hraise.
Qed.

Lemma furthest_distance_returns seats self :
  forallb within_limit seats = true ->
  furthest_distance seats self = (Return (priority_of seats), self).
Proof.
  intros Hall. unfold furthest_distance, priority_of, bind.
  rewrite comprehension_parse_returns by done.
  by destruct (map seat_distance seats).
Qed.

Lemma furthest_distance_raises seats self :
  forallb within_limit seats = false ->
  exists run,
    Py.int_literal run = None
    /\ furthest_distance seats self = (Raise (ValueError_int run), self).
Proof.
  intros (run & Hrun & Hraise)%(comprehension_parse_raises seats self).
  exists run. split; [done|]. unfold furthest_distance, bind. by rewrite Hraise.
Qed.

Lemma parsed_distances_map seats :
  forallb within_limit seats = true ->
  parsed_distances seats (map seat_distance seats).
Proof.
  induction seats as [|seat seats IH]; simpl; [constructor|].
  intros [Hseat Hseats]%andb_true_iff. constructor; [|by apply IH].
  intros self. by apply parse_seat_distance_returns.
Qed.

Lemma booking_of_priority booking_id seats_string :
  seats_within_limit seats_string = true ->
  priority_is_furthest (booking_of booking_id seats_string).
Proof.
  intros Hlimit.
  exists (map seat_distance (seats (booking_of booking_id seats_string))).
  split; [by apply parsed_distances_map|].
  unfold booking_of, priority_of; simpl.
  destruct (map seat_distance _) as [|d ds]; split; try done.
  intros _. apply foldl_max_is_maximum.
Qed.

Lemma built_by_loader_priority b : built_by_loader b -> priority_is_furthest b.
Proof. intros (i & s & Hs & ->). by apply booking_of_priority. Qed.

(** ** The loaders *)

Lemma add_booking_returns booking_id seats_string self :
  seats_within_limit seats_string = true ->
  add_booking booking_id seats_string self
  = (Return tt, {| bookings := bookings self ++ [booking_of booking_id seats_string] |}).
Proof.
  intros Hlimit. unfold add_booking, bind. by rewrite furthest_distance_returns.
Qed.

(** A seat that does not parse stops the booking: nothing is appended. *)
Lemma add_booking_raises booking_id seats_string self :
  seats_within_limit seats_string = false ->
  exists run,
    Py.int_literal run = None
    /\ add_booking booking_id seats_string self = (Raise (ValueError_int run), self).
Proof.
  intros (run & Hrun & Hraise)%(furthest_distance_raises _ self).
  exists run. split; [done|]. unfold add_booking, bind. by rewrite Hraise.
Qed.

Lemma add_booking_raise booking_id seats_string self e self' :
  add_booking booking_id seats_string self = (Raise e, self') ->
  self' = self /\ exists literal, Py.int_literal literal = None /\ e = ValueError_int literal.
Proof.
  destruct (seats_within_limit seats_string) eqn:Hlimit.
  - by rewrite add_booking_returns.
  - destruct (add_booking_raises booking_id seats_string self Hlimit)
      as (run & Hrun & ->).
    intros [= <- <-]. eauto.
Qed.

Lemma add_booking_keeps_built booking_id seats_string self :
  Forall built_by_loader (bookings self) ->
  Forall built_by_loader (bookings (add_booking booking_id seats_string self).2).
Proof.
  intros Hself. destruct (seats_within_limit seats_string) eqn:Hlimit.
  - rewrite add_booking_returns by done. simpl.
    apply Forall_app. split; [done|]. constructor; [|constructor].
    by exists booking_id, seats_string.
  - by destruct (add_booking_raises booking_id seats_string self Hlimit)
      as (run & _ & ->).
Qed.

Lemma split_nonempty sep s : Py.split sep s <> [].
Proof.
  destruct s as [|c s]; simpl; [done|].
  destruct (Ascii.eqb c sep); [done|]. by destruct (Py.split sep s).
Qed.

Lemma for_each_add_booking booking_data self :
  Forall (fun '(i, s) => seats_within_limit s = true) booking_data ->
  for_each (fun '(booking_id, seats_string) => add_booking booking_id seats_string)
    booking_data self
  = (Return tt,
     {| bookings := bookings self ++ map (fun '(i, s) => booking_of i s) booking_data |}).
Proof.
  intros Hdata. revert self.
  induction Hdata as [|[i s] l Hs _ IH]; intros self; simpl.
  - unfold ret. rewrite app_nil_r. by destruct self.
  - unfold bind. rewrite add_booking_returns, IH by done. simpl.
    by rewrite <- app_assoc.
Qed.

Lemma load_bookings_from_data_returns booking_data self :
  Forall (fun '(i, s) => seats_within_limit s = true) booking_data ->
  load_bookings_from_data booking_data self
  = (Return tt, {| bookings := map (fun '(i, s) => booking_of i s) booking_data |}).
Proof.
  intros Hdata. unfold load_bookings_from_data, bind, set_bookings.
  by rewrite for_each_add_booking.
Qed.

(** The data loader forgets the collection it finds. *)
Lemma load_bookings_from_data_fresh booking_data self :
  load_bookings_from_data booking_data self
  = load_bookings_from_data booking_data init.
Proof. reflexivity. Qed.

Lemma load_bookings_from_data_built booking_data self :
  Forall built_by_loader (bookings (load_bookings_from_data booking_data self).2).
Proof.
  unfold load_bookings_from_data, bind, set_bookings.
  apply (for_each_invariant (fun s => Forall built_by_loader (bookings s))).
  - intros [i s] self' Hself'. by apply add_booking_keeps_built.
  - constructor.
Qed.

(** What one turn of the loop of the file loader does is decided by the
    tab-separated fields of the stripped line. *)
Lemma load_line_fields line self :
  load_line line self
  = match fields line with
    | part0 :: part1 :: _ =>
        match Py.int_literal part0 with
        | Some i => add_booking i part1 self
        | None => (Raise (ValueError_int part0), self)
        end
    | _ => (Return tt, self)
    end.
Proof.
  unfold load_line, fields. destruct (Py.strip line) as [|c s] eqn:Hline; [done|].
  destruct (Py.split _ _) as [|part0 [|part1 parts]]; try done.
  unfold bind, int_. by destruct (Py.int_literal part0).
Qed.

(** A turn of the loop that raises raises the [ValueError] of [int()], on
    the identifier field or on the digits of a seat, and appends nothing. *)
Lemma load_line_raise line self e self' :
  load_line line self = (Raise e, self') ->
  self' = self
  /\ exists literal, Py.int_literal literal = None /\ e = ValueError_int literal.
Proof.
  rewrite load_line_fields.
  destruct (fields line) as [|part0 [|part1 parts]]; try done.
  destruct (Py.int_literal part0) eqn:Hint.
  - apply add_booking_raise.
  - intros [= <- <-]. eauto.
Qed.

(** The file loader, case by case on what is at the path. *)
Lemma load_bookings_from_file_cases fs file_path self :
  load_bookings_from_file fs file_path self
  = match fs file_path with
    | Absent =>
        (Raise (FileNotFoundError ("Booking file not found: " +:+ file_path)), init)
    | Unreadable k => (Raise (Exception_ (IOFailure k)), init)
    | Readable text =>
        match for_each load_line (records text) init with
        | (Return _, self') => (Return tt, self')
        | (Raise e, self') => (Raise (Exception_ e), self')
        end
    end.
Proof.
  unfold load_bookings_from_file, open_readlines, records.
  unfold bind at 1. unfold set_bookings, try_except. fold init.
  destruct (fs file_path) as [| k | text]; try done.
  unfold bind, ret.
  destruct (for_each load_line _ init) as [[[]|e] self'] eqn:Hloop; [done|].
  apply for_each_raise in Hloop as (? & line & ? & mid & _ & _ & Hline).
  apply load_line_raise in Hline as (_ & literal & _ & ->). done.
Qed.

Lemma load_line_keeps_built line self :
  Forall built_by_loader (bookings self) ->
  Forall built_by_loader (bookings (load_line line self).2).
Proof.
  intros H. rewrite load_line_fields.
  destruct (fields line) as [|part0 [|part1 parts]]; try done.
  destruct (Py.int_literal part0); [|done]. by apply add_booking_keeps_built.
Qed.

Lemma load_bookings_from_file_built fs file_path self :
  Forall built_by_loader (bookings (load_bookings_from_file fs file_path self).2).
Proof.
  rewrite load_bookings_from_file_cases.
  destruct (fs file_path) as [| k | text]; simpl; try by constructor.
  pose proof (for_each_invariant
                (fun s => Forall built_by_loader (bookings s))
                load_line (records text) init) as Hinv.
  destruct (for_each load_line (records text) init) as [[[]|e] self'];
    apply Hinv; try (by constructor); apply load_line_keeps_built.
Qed.

(** C3: every booking either loader puts in the collection, however the
    load ends, has as priority the greatest of the distances parsed from its
    seats (one of them, and no smaller than any); on a list without seats
    the reduction does not fail and returns 0. *)
Theorem priority_is_maximum_distance :
  (forall booking_data self b,
      b ∈ bookings (load_bookings_from_data booking_data self).2 ->
      priority_is_furthest b)
  /\ (forall fs file_path self b,
        b ∈ bookings (load_bookings_from_file fs file_path self).2 ->
        priority_is_furthest b)
  /\ (forall self, furthest_distance [] self = (Return 0, self)).
Proof.
  split; [|split].
  - intros booking_data self b Hb. apply built_by_loader_priority.
    pose proof (load_bookings_from_data_built booking_data self) as Hall.
    rewrite Forall_forall in Hall. by apply Hall.
  - intros fs file_path self b Hb. apply built_by_loader_priority.
    pose proof (load_bookings_from_file_built fs file_path self) as Hall.
    rewrite Forall_forall in Hall. by apply Hall.
  - intros self. reflexivity.
Qed.

Lemma priority_is_maximum_distance_witness :
  priority_is_furthest
    {| booking_id := 120; seats := ["A20"; "C2"]; min_distance := 20 |}.
Proof.
  apply (proj1 priority_is_maximum_distance [(120, "A20,C2")] init).
  vm_compute. left.
Defined.

(** ** Loading from data *)

Lemma has_digit_split sep s :
  has_digit s = false -> Forall (fun t => has_digit t = false) (Py.split sep s).
Proof.
  induction s as [|c s IH]; simpl; [by repeat constructor|].
  intros [Hc Hs]%orb_false_iff. specialize (IH Hs).
  destruct (Ascii.eqb c sep); [by constructor|].
  destruct (Py.split sep s) as [|t ts]; [by repeat constructor; simpl; rewrite Hc|].
  apply Forall_cons in IH as [Ht Hts]. constructor; [|done].
  simpl. by rewrite Hc, Ht.
Qed.

Lemma has_digit_lstrip s : has_digit s = false -> has_digit (Py.lstrip s) = false.
Proof.
  induction s as [|c s IH]; simpl; [done|].
  intros H. pose proof H as [Hc Hs]%orb_false_iff.
  destruct (Py.isspace c); [by apply IH | done].
Qed.

Lemma has_digit_rstrip s : has_digit s = false -> has_digit (Py.rstrip s) = false.
Proof.
  induction s as [|c s IH]; simpl; [done|].
  intros [Hc Hs]%orb_false_iff. specialize (IH Hs).
  destruct (Py.rstrip s) as [|d r].
  - destruct (Py.isspace c); simpl; [done | by rewrite Hc].
  - simpl in *. by rewrite Hc, IH.
Qed.

Lemma seat_distance_no_digit seat : has_digit seat = false -> seat_distance seat = 0.
Proof. intros H. unfold seat_distance. by rewrite search_digits_None. Qed.

Lemma priority_of_no_digit seats :
  Forall (fun t => has_digit t = false) seats -> priority_of seats = 0.
Proof.
  unfold priority_of. intros H.
  assert (Forall (fun d => d = 0) (map seat_distance seats)) as Hz.
  { induction H; constructor; [by apply seat_distance_no_digit | done]. }
  destruct (map seat_distance seats) as [|d ds]; [done|].
  apply Forall_cons in Hz as [-> Hz].
  induction Hz as [|x ds -> _ IH]; [done | apply IH].
Qed.

(** Against C9 as stated: a seat label of 4301 digits in the second of
    three pairs makes the data loader raise the [ValueError] of [int()],
    with the booking of the first pair alone in the collection. *)
Lemma load_bookings_from_data_long_seat :
  load_bookings_from_data [(1, "A2"); (5, long_seat); (6, "A3")] init
  = (Raise (ValueError_int long_seat),
     {| bookings := [{| booking_id := 1; seats := ["A2"]; min_distance := 2 |}] |})
  /\ ~ (forall booking_data self,
          exists bs,
            load_bookings_from_data booking_data self
            = (Return tt, {| bookings := bs |})).
Proof.
  assert (load_bookings_from_data [(1, "A2"); (5, long_seat); (6, "A3")] init
          = (Raise (ValueError_int long_seat),
             {| bookings :=
                  [{| booking_id := 1; seats := ["A2"]; min_distance := 2 |}] |}))
    as Hlong by (vm_compute; reflexivity).
  split; [exact Hlong|].
  intros Hall.
  destruct (Hall [(1, "A2"); (5, long_seat); (6, "A3")] init) as [bs Hbs].
  rewrite Hlong in Hbs. discriminate Hbs.
Qed.

(** C9, as the code has it: loading from data returns for every list of
    pairs in which no seat label has a first run of digits longer than the
    4300 digits [int()] takes; it then builds one booking per pair, in
    order, with the pair's identifier and a seat list that is never empty,
    so that the reduction never meets an empty list; a seat string without
    digits gives priority 0. *)
Theorem load_bookings_from_data_total booking_data self :
  Forall (fun '(i, seats_string) => seats_within_limit seats_string = true)
    booking_data ->
  exists bs,
    load_bookings_from_data booking_data self = (Return tt, {| bookings := bs |})
    /\ Forall2
         (fun '(i, seats_string) b =>
            booking_id b = i
            /\ seats b = map Py.strip (Py.split "," seats_string)
            /\ seats b <> []
            /\ (forall self', exists ds,
                   comprehension parse_seat_distance (seats b) self' = (Return ds, self')
                   /\ ds <> [])
            /\ (has_digit seats_string = false -> min_distance b = 0))
         booking_data bs.
Proof.
  intros Hdata.
  eexists. split; [by apply load_bookings_from_data_returns|].
  induction Hdata as [|[i s] l Hs _ IH]; simpl; constructor; [|done].
  assert (map Py.strip (Py.split "," s) <> []) as Hne.
  { pose proof (split_nonempty "," s). by destruct (Py.split "," s). }
  repeat split; simpl; try done.
  - intros self'. exists (map seat_distance (map Py.strip (Py.split "," s))).
    split; [by apply comprehension_parse_returns|].
    by destruct (map Py.strip (Py.split "," s)).
  - intros Hdigit. apply priority_of_no_digit.
    apply Forall_fmap. eapply Forall_impl; [by apply has_digit_split|].
    intros t Ht. simpl. unfold Py.strip. by apply has_digit_rstrip, has_digit_lstrip.
Qed.

(** A seat string without digits is within the limit. *)
Lemma load_bookings_from_data_total_witness :
  load_bookings_from_data [(7, "")] init
  = (Return tt,
     {| bookings := [{| booking_id := 7; seats := [""]; min_distance := 0 |}] |}).
Proof.
  destruct (load_bookings_from_data_total [(7, "")] init) as (bs & -> & Hbs).
  { repeat constructor. }
  apply Forall2_cons_inv_l in Hbs as (b & bs' & (Hid & Hseats & _ & _ & Hzero) & Hnil & ->).
  apply Forall2_nil_inv_l in Hnil as ->.
  destruct b as [i ss d]; simpl in *. rewrite Hid, Hseats, Hzero; reflexivity.
Defined.

(** ** Sorting *)

Local Ltac tuple_lt_solve :=
  unfold Py.tuple_lt in *; simpl in *;
  repeat match goal with
         | H : context [(?a =? ?b)%Z] |- _ => destruct (Z.eqb_spec a b)
         | |- context [(?a =? ?b)%Z] => destruct (Z.eqb_spec a b)
         | H : context [(?a <? ?b)%Z] |- _ => destruct (Z.ltb_spec a b)
         | |- context [(?a <? ?b)%Z] => destruct (Z.ltb_spec a b)
         end; try done; try lia.

Lemma tuple_lt_irrefl a : Py.tuple_lt a a = false.
Proof. tuple_lt_solve. Qed.

Lemma tuple_lt_asym a b : Py.tuple_lt a b = true -> Py.tuple_lt b a = false.
Proof. destruct a, b. tuple_lt_solve. Qed.

Lemma tuple_le_trans a b c :
  Py.tuple_lt b a = false -> Py.tuple_lt c b = false -> Py.tuple_lt c a = false.
Proof. destruct a, b, c. tuple_lt_solve. Qed.

Lemma sort_key_boards_before a b :
  Py.tuple_lt (sort_key b) (sort_key a) = false -> boards_before a b.
Proof. unfold sort_key, boards_before. tuple_lt_solve. Qed.

Section SortedFacts.
Context {A : Type} (key : A -> Z * Z).

Lemma insert_sorted_perm x l : Py.insert_sorted key x l ≡ₚ x :: l.
Proof.
  induction l as [|y l IH]; simpl; [done|].
  destruct (Py.tuple_lt (key y) (key x)); [|done].
  rewrite IH. apply Permutation_swap.
Qed.

Lemma sorted_perm l : Py.sorted key l ≡ₚ l.
Proof.
  induction l as [|x l IH]; simpl; [done|].
  by rewrite insert_sorted_perm, IH.
Qed.

Lemma insert_sorted_strongly x l :
  StronglySorted (key_le key) l -> StronglySorted (key_le key) (Py.insert_sorted key x l).
Proof.
  induction 1 as [|y l Hl IH Hy]; simpl; [by repeat constructor|].
  destruct (Py.tuple_lt (key y) (key x)) eqn:Hyx.
  - constructor; [done|].
    rewrite insert_sorted_perm. constructor; [|done].
    by apply tuple_lt_asym.
  - constructor; [by constructor|].
    constructor; [done|].
    eapply Forall_impl; [exact Hy|]. intros z Hz.
    unfold key_le in *. by eapply tuple_le_trans.
Qed.

Lemma sorted_strongly l : StronglySorted (key_le key) (Py.sorted key l).
Proof.
  induction l as [|x l IH]; simpl; [constructor|].
  by apply insert_sorted_strongly.
Qed.

(** Stability: elements with one key keep their relative order. *)
Lemma insert_sorted_filter k x l :
  filter (fun y => key y = k) (Py.insert_sorted key x l)
  = filter (fun y => key y = k) (x :: l).
Proof.
  induction l as [|y l IH]; simpl; [done|].
  destruct (Py.tuple_lt (key y) (key x)) eqn:Hyx; [|done].
  rewrite !filter_cons in *. rewrite IH.
  destruct (decide (key x = k)) as [Hx|]; [|done].
  destruct (decide (key y = k)) as [Hy|]; [|done].
  rewrite Hx, Hy, tuple_lt_irrefl in Hyx. done.
Qed.

Lemma sorted_stable k l :
  filter (fun y => key y = k) (Py.sorted key l) = filter (fun y => key y = k) l.
Proof.
  induction l as [|x l IH]; simpl; [done|].
  rewrite insert_sorted_filter, !filter_cons. by rewrite IH.
Qed.
End SortedFacts.

Lemma StronglySorted_lookup {A : Type} (R : A -> A -> Prop) l (i j : nat) a b :
  StronglySorted R l -> (i < j)%nat -> l !! i = Some a -> l !! j = Some b -> R a b.
Proof.
  intros Hl. revert i j. induction Hl as [|x l Hl IH Hx]; intros i j Hij Hi Hj; [done|].
  destruct j as [|j]; [lia|]. simpl in Hj. destruct i as [|i]; simpl in Hi.
  - injection Hi as ->. rewrite Forall_forall in Hx. apply Hx.
    by eapply list_elem_of_lookup_2.
  - apply (IH i j); [lia | done | done].
Qed.

Lemma enumerate_lookup {A : Type} start (l : list A) (i : nat) :
  Py.enumerate start l !! i = (fun x => (start + Z.of_nat i, x)) <$> l !! i.
Proof.
  revert start i. induction l as [|x l IH]; intros start i; [done|].
  destruct i as [|i]; simpl; [by rewrite Z.add_0_r|].
  rewrite IH. destruct (l !! i); simpl; [|done]. do 2 f_equal. lia.
Qed.

Lemma enumerate_fst {A : Type} start (l : list A) :
  map fst (Py.enumerate start l)
  = map (fun i : nat => start + Z.of_nat i) (seq 0 (length l)).
Proof.
  revert start. induction l as [|x l IH]; intros start; simpl; [done|].
  rewrite Z.add_0_r. f_equal. rewrite IH, <- seq_shift, map_map.
  apply map_ext. intros i. lia.
Qed.

Lemma enumerate_snd {A : Type} start (l : list A) :
  map snd (Py.enumerate start l) = l.
Proof.
  revert start. induction l as [|x l IH]; intros start; simpl; [done|].
  by rewrite IH.
Qed.

Lemma enumerate_elem_of {A : Type} start (l : list A) i x :
  (i, x) ∈ Py.enumerate start l -> x ∈ l.
Proof.
  intros H. rewrite <- (enumerate_snd start l).
  apply (list_elem_of_fmap_2 snd) in H. exact H.
Qed.

(** ** The ordering operation *)

(** The pairs the ordering operation returns for a sorted list of bookings. *)
Lemma generate_boarding_sequence_returns self :
  generate_boarding_sequence self
  = (Return (map (fun '(i, booking) => (i, booking_id booking))
               (Py.enumerate 1 (sorted_bookings self))), self).
Proof.
  unfold generate_boarding_sequence, sorted_bookings, bind, get_bookings, ret.
  by destruct (bookings self).
Qed.

Lemma sequence_lookup self (i : nat) a :
  sorted_bookings self !! i = Some a ->
  map (fun '(i, booking) => (i, booking_id booking))
    (Py.enumerate 1 (sorted_bookings self)) !! i
  = Some (Z.of_nat i + 1, booking_id a).
Proof.
  intros Hi. change map with (@fmap list _). rewrite list_lookup_fmap.
  rewrite enumerate_lookup, Hi. simpl. do 2 f_equal. lia.
Qed.

(** C1: the ordering operation numbers the bookings of the collection sorted
    on the key (-priority, identifier): the sorted list is a rearrangement of
    the collection, and whenever booking [a] is at an earlier place than
    booking [b], the entries of the result at these places carry their
    identifiers and [a] has the greater priority, or the same priority and an
    identifier that is not greater. *)
Theorem generate_boarding_sequence_respects_key self (i j : nat) a b :
  (i < j)%nat ->
  sorted_bookings self !! i = Some a ->
  sorted_bookings self !! j = Some b ->
  exists sequence,
    generate_boarding_sequence self = (Return sequence, self)
    /\ sorted_bookings self ≡ₚ bookings self
    /\ sequence !! i = Some (Z.of_nat i + 1, booking_id a)
    /\ sequence !! j = Some (Z.of_nat j + 1, booking_id b)
    /\ (min_distance a > min_distance b
        \/ (min_distance a = min_distance b /\ booking_id a <= booking_id b)).
Proof.
  intros Hij Hi Hj. eexists. split; [apply generate_boarding_sequence_returns|].
  split; [apply sorted_perm|].
  split; [by apply sequence_lookup|]. split; [by apply sequence_lookup|].
  apply sort_key_boards_before.
  exact (StronglySorted_lookup _ _ i j a b (sorted_strongly sort_key _) Hij Hi Hj).
Qed.

Lemma generate_boarding_sequence_respects_key_witness :
  min_distance {| booking_id := 101; seats := ["A10"; "C10"]; min_distance := 10 |}
  > min_distance {| booking_id := 105; seats := ["A10"; "B10"]; min_distance := 10 |}
  \/ (min_distance {| booking_id := 101; seats := ["A10"; "C10"]; min_distance := 10 |}
      = min_distance {| booking_id := 105; seats := ["A10"; "B10"]; min_distance := 10 |}
      /\ booking_id {| booking_id := 101; seats := ["A10"; "C10"]; min_distance := 10 |}
         <= booking_id {| booking_id := 105; seats := ["A10"; "B10"]; min_distance := 10 |}).
Proof.
  destruct (generate_boarding_sequence_respects_key tie_break_collection 1 2
              {| booking_id := 101; seats := ["A10"; "C10"]; min_distance := 10 |}
              {| booking_id := 105; seats := ["A10"; "B10"]; min_distance := 10 |})
    as (sequence & _ & _ & _ & _ & Horder).
  - lia.
  - reflexivity.
  - reflexivity.
  - exact Horder.
Defined.

Lemma enumerate_length {A : Type} start (l : list A) :
  length (Py.enumerate start l) = length l.
Proof. by rewrite <- (length_map snd), enumerate_snd. Qed.

(** C4: the ordering operation returns for every collection: as many entries
    as bookings, numbered 1, 2, ..., n in output order, whose identifiers are
    those of the bookings, each as often as in the collection; an empty
    collection gives an empty result. *)
Theorem generate_boarding_sequence_numbers self :
  exists sequence,
    generate_boarding_sequence self = (Return sequence, self)
    /\ length sequence = length (bookings self)
    /\ map fst sequence = map Z.of_nat (seq 1 (length (bookings self)))
    /\ map snd sequence ≡ₚ map booking_id (bookings self)
    /\ (bookings self = [] -> sequence = []).
Proof.
  eexists. split; [apply generate_boarding_sequence_returns|].
  assert (length (sorted_bookings self) = length (bookings self)) as Hlen
    by apply Permutation_length, sorted_perm.
  assert (length (map (fun '(i, booking) => (i, booking_id booking))
                    (Py.enumerate 1 (sorted_bookings self)))
          = length (bookings self)) as Hlen'
    by by rewrite length_map, enumerate_length.
  split; [done|]. split; [|split].
  - rewrite map_map.
    rewrite (map_ext _ fst) by (by intros []).
    rewrite enumerate_fst, Hlen, <- seq_shift, map_map.
    apply map_ext. intros i. lia.
  - rewrite map_map.
    rewrite (map_ext _ (fun p => booking_id (snd p))) by (by intros []).
    rewrite <- (map_map snd booking_id), enumerate_snd.
    apply Permutation_map, sorted_perm.
  - intros Hnil. apply nil_length_inv. by rewrite Hlen', Hnil.
Qed.

Lemma generate_boarding_sequence_numbers_witness :
  generate_boarding_sequence init = (Return [], init).
Proof.
  destruct (generate_boarding_sequence_numbers init) as (sequence & -> & _ & _ & _ & Hnil).
  rewrite Hnil; reflexivity.
Defined.

(** C8: the ordering operation returns a result and leaves the collection as
    it found it; what it returns depends on the collection only, so calling
    it again, straight after or later on the same collection, returns the
    same result. *)
Theorem generate_boarding_sequence_pure self :
  (exists sequence, generate_boarding_sequence self = (Return sequence, self))
  /\ (generate_boarding_sequence self).2 = self
  /\ generate_boarding_sequence (generate_boarding_sequence self).2
     = generate_boarding_sequence self
  /\ (generate_boarding_sequence >> generate_boarding_sequence) self
     = generate_boarding_sequence self
  /\ (forall self',
        bookings self' = bookings self ->
        (generate_boarding_sequence self').1 = (generate_boarding_sequence self).1).
Proof.
  split; [eexists; apply generate_boarding_sequence_returns|].
  split; [by rewrite generate_boarding_sequence_returns|].
  split.
  { rewrite (generate_boarding_sequence_returns self). simpl.
    apply generate_boarding_sequence_returns. }
  split.
  - unfold bind. rewrite (generate_boarding_sequence_returns self).
    apply generate_boarding_sequence_returns.
  - intros self' Heq. rewrite !generate_boarding_sequence_returns.
    unfold sorted_bookings. by rewrite Heq.
Qed.

Lemma generate_boarding_sequence_pure_witness :
  (generate_boarding_sequence {| bookings := bookings tie_break_collection |}).1
  = (generate_boarding_sequence tie_break_collection).1.
Proof.
  apply (generate_boarding_sequence_pure tie_break_collection). reflexivity.
Defined.

(** ** The details operation *)

Lemma booking_dict_other (bs : list Booking) (d : gmap Z Booking) k :
  k ∉ map booking_id bs ->
  foldl (fun d b => <[booking_id b := b]> d) d bs !! k = d !! k.
Proof.
  revert d. induction bs as [|x bs IH]; intros d Hk; simpl; [done|].
  simpl in Hk. apply not_elem_of_cons in Hk as [Hx Hk].
  rewrite IH by done. by rewrite lookup_insert_ne.
Qed.

(** With distinct identifiers the dictionary of line 139 finds each booking
    under its identifier. *)
Lemma booking_dict_lookup (bs : list Booking) (d : gmap Z Booking) b :
  NoDup (map booking_id bs) -> b ∈ bs ->
  foldl (fun d b => <[booking_id b := b]> d) d bs !! booking_id b = Some b.
Proof.
  revert d. induction bs as [|x bs IH]; intros d Hnodup Hb; simpl.
  - by apply elem_of_nil in Hb.
  - simpl in Hnodup. apply NoDup_cons in Hnodup as [Hx Hnodup].
    apply elem_of_cons in Hb as [->|Hb]; [|by apply IH].
    rewrite booking_dict_other by done. apply lookup_insert_eq.
Qed.

Lemma details_of_sequence (d : gmap Z Booking) (l : list (Z * Booking)) self :
  (forall i b, (i, b) ∈ l -> d !! booking_id b = Some b) ->
  comprehension
    (fun '(seq_num, booking_id) =>
       let! booking := getitem d booking_id in
       ret {| Detail.sequence := seq_num;
              Detail.booking_id := booking_id;
              Detail.seats := seats booking;
              Detail.furthest_seat_distance := min_distance booking |})
    (map (fun '(i, booking) => (i, booking_id booking)) l) self
  = (Return (map (fun '(i, b) => detail_of i b) l), self).
Proof.
  induction l as [|[i b] l IH]; intros Hd; simpl; [done|].
  unfold bind, getitem, ret in *.
  rewrite (Hd i b) by left.
  by rewrite (IH (fun j c Hc => Hd j c (list_elem_of_further _ _ _ Hc))).
Qed.

Lemma get_boarding_details_returns self :
  NoDup (map booking_id (bookings self)) ->
  get_boarding_details self
  = (Return (map (fun '(i, b) => detail_of i b)
               (Py.enumerate 1 (sorted_bookings self))), self).
Proof.
  intros Hnodup. unfold get_boarding_details.
  unfold bind at 1. rewrite generate_boarding_sequence_returns.
  unfold bind at 1. unfold get_bookings.
  apply details_of_sequence. intros i b Hb.
  apply booking_dict_lookup; [done|].
  apply enumerate_elem_of in Hb.
  unfold sorted_bookings in Hb. by rewrite sorted_perm in Hb.
Qed.

(** C10: when the identifiers of the collection are pairwise distinct, the
    details operation returns one entry per entry of the ordering operation,
    in the same order and with the same sequence number and identifier; each
    entry carries the seat list and the stored priority of the booking at
    that place of the sorted collection, which is the booking of the
    collection with that identifier. *)
Theorem get_boarding_details_follows_sequence self :
  NoDup (map booking_id (bookings self)) ->
  exists sequence details,
    generate_boarding_sequence self = (Return sequence, self)
    /\ get_boarding_details self = (Return details, self)
    /\ map (fun d => (Detail.sequence d, Detail.booking_id d)) details = sequence
    /\ details
       = map (fun '(i, b) => detail_of i b) (Py.enumerate 1 (sorted_bookings self))
    /\ Forall
         (fun d =>
            exists b,
              b ∈ bookings self
              /\ booking_id b = Detail.booking_id d
              /\ Detail.seats d = seats b
              /\ Detail.furthest_seat_distance d = min_distance b)
         details.
Proof.
  intros Hnodup. do 2 eexists.
  split; [apply generate_boarding_sequence_returns|].
  split; [by apply get_boarding_details_returns|].
  split; [|split; [done|]].
  - rewrite map_map. apply map_ext. by intros [i b].
  - apply Forall_forall. intros d Hd.
    change map with (@fmap list _) in Hd.
    apply list_elem_of_fmap in Hd as ([i b] & -> & Hb).
    exists b. split; [|done].
    apply enumerate_elem_of in Hb.
    unfold sorted_bookings in Hb. by rewrite sorted_perm in Hb.
Qed.

Lemma get_boarding_details_follows_sequence_witness :
  exists sequence details,
    generate_boarding_sequence tie_break_collection
    = (Return sequence, tie_break_collection)
    /\ get_boarding_details tie_break_collection
       = (Return details, tie_break_collection)
    /\ map (fun d => (Detail.sequence d, Detail.booking_id d)) details = sequence
    /\ details
       = map (fun '(i, b) => detail_of i b)
           (Py.enumerate 1 (sorted_bookings tie_break_collection))
    /\ Forall
         (fun d =>
            exists b,
              b ∈ bookings tie_break_collection
              /\ booking_id b = Detail.booking_id d
              /\ Detail.seats d = seats b
              /\ Detail.furthest_seat_distance d = min_distance b)
         details.
Proof.
  apply (get_boarding_details_follows_sequence tie_break_collection).
  apply (bool_decide_unpack _). vm_compute. exact I.
Defined.

(** ** Failures of the file loader *)

Lemma load_line_short line self :
  (length (fields line) < 2)%nat -> load_line line self = (Return tt, self).
Proof.
  intros Hlen. rewrite load_line_fields.
  destruct (fields line) as [|part0 [|part1 parts]]; simpl in Hlen; try done. lia.
Qed.

Lemma for_each_load_line_short before line after self :
  (length (fields line) < 2)%nat ->
  for_each load_line (before ++ line :: after) self
  = for_each load_line (before ++ after) self.
Proof.
  intros Hlen. rewrite !for_each_app. unfold bind.
  destruct (for_each load_line before self) as [[[]|e] mid]; [|done].
  simpl. unfold bind. by rewrite load_line_short.
Qed.

(** A record with two fields or more whose first field is not an integer
    makes the loop raise: at that record, or at an earlier one that [int()]
    stops as well. *)
Lemma for_each_load_line_bad l line part0 part1 parts self :
  line ∈ l -> fields line = part0 :: part1 :: parts -> Py.int_literal part0 = None ->
  exists literal self',
    Py.int_literal literal = None
    /\ for_each load_line l self = (Raise (ValueError_int literal), self').
Proof.
  intros Hin Hfields Hint. revert self.
  induction l as [|x l IH]; intros self; [by apply elem_of_nil in Hin|].
  simpl. unfold bind. destruct (load_line x self) as [[[]|e] mid] eqn:Hx.
  - apply elem_of_cons in Hin as [->|Hin]; [|by apply IH].
    rewrite load_line_fields, Hfields, Hint in Hx. done.
  - apply load_line_raise in Hx as (-> & literal & Hliteral & ->).
    by exists literal, self.
Qed.

Lemma split_length sep s : length (Py.split sep s) = S (occurrences sep s).
Proof.
  induction s as [|c s IH]; simpl; [done|].
  destruct (Ascii.eqb c sep); simpl; [by rewrite IH|].
  by destruct (Py.split sep s).
Qed.

Lemma occurrences_lstrip c s : (occurrences c (Py.lstrip s) <= occurrences c s)%nat.
Proof.
  induction s as [|d s IH]; simpl; [done|].
  destruct (Py.isspace d); simpl; lia.
Qed.

Lemma occurrences_rstrip c s : (occurrences c (Py.rstrip s) <= occurrences c s)%nat.
Proof.
  induction s as [|d s IH]; simpl; [done|].
  destruct (Py.rstrip s) as [|d' r]; simpl in *.
  - destruct (Py.isspace d); simpl; lia.
  - lia.
Qed.

(** Stripping a line never adds a field. *)
Lemma fields_length line :
  (length (fields line) <= length (Py.split "009" line))%nat.
Proof.
  unfold fields, Py.strip. rewrite !split_length.
  pose proof (occurrences_rstrip "009" (Py.lstrip line)).
  pose proof (occurrences_lstrip "009" line). lia.
Qed.

(** Against C6 as stated: the line "abc<TAB>" has two tab-separated fields
    and an identifier field that is not an integer, yet the load does not
    fail; stripped, the line has one field and is skipped. *)
Lemma identifier_before_blank_field_is_skipped :
  Py.split "009" ("abc" +:+ tab +:+ newline) = ["abc"; newline]
  /\ Py.int_literal "abc" = None
  /\ load_bookings_from_file (fun _ => Readable ("abc" +:+ tab +:+ newline))
       "bookings.txt" init
     = (Return tt, init)
  /\ ~ (forall fs file_path text line part0 parts self,
          fs file_path = Readable text ->
          line ∈ records text ->
          Py.split "009" line = part0 :: parts -> parts <> [] ->
          Py.int_literal part0 = None ->
          exists e self', load_bookings_from_file fs file_path self = (Raise e, self')).
Proof.
  split; [reflexivity|]. split; [reflexivity|]. split; [reflexivity|].
  intros Hfails.
  destruct (Hfails (fun _ => Readable ("abc" +:+ tab +:+ newline)) "bookings.txt"
              ("abc" +:+ tab +:+ newline) ("abc" +:+ tab +:+ newline)
              "abc" [newline] init)
    as (e & self' & Hraise);
    [reflexivity | vm_compute; left | reflexivity | discriminate | reflexivity |].
  discriminate Hraise.
Qed.

(** C6, as the code has it: the fields of a line are counted once the line
    is stripped.  A line with fewer than two tab-separated fields, as read
    or once stripped, changes nothing and raises nothing, so a file loads
    exactly as the file without that line; a line with two fields or more
    once stripped, whose first field [int()] rejects, makes the whole load
    raise the generic exception, built from a parse error of [int()]. *)
Theorem malformed_tabular_input :
  (forall line self,
      (length (Py.split "009" line) < 2)%nat \/ (length (fields line) < 2)%nat ->
      load_line line self = (Return tt, self))
  /\ (forall fs path1 path2 text1 text2 before line after self,
        fs path1 = Readable text1 -> fs path2 = Readable text2 ->
        records text1 = before ++ line :: after ->
        records text2 = before ++ after ->
        (length (fields line) < 2)%nat ->
        load_bookings_from_file fs path1 self = load_bookings_from_file fs path2 self)
  /\ (forall fs file_path text line part0 part1 parts self,
        fs file_path = Readable text ->
        line ∈ records text ->
        fields line = part0 :: part1 :: parts ->
        Py.int_literal part0 = None ->
        exists literal self',
          Py.int_literal literal = None
          /\ load_bookings_from_file fs file_path self
             = (Raise (Exception_ (ValueError_int literal)), self')).
Proof.
  split; [|split].
  - intros line self [Hraw|Hlen]; apply load_line_short; [|done].
    pose proof (fields_length line). lia.
  - intros fs path1 path2 text1 text2 before line after self H1 H2 Hr1 Hr2 Hlen.
    rewrite !load_bookings_from_file_cases, H1, H2, Hr1, Hr2.
    by rewrite for_each_load_line_short.
  - intros fs file_path text line part0 part1 parts self Hfs Hin Hfields Hint.
    destruct (for_each_load_line_bad (records text) line part0 part1 parts init
                Hin Hfields Hint) as (literal & self' & Hlit & Hloop).
    exists literal, self'. split; [done|].
    by rewrite load_bookings_from_file_cases, Hfs, Hloop.
Qed.

Lemma malformed_tabular_input_witness :
  load_line "no tab here" init = (Return tt, init)
  /\ load_bookings_from_file sample_files "short.txt" init
  = load_bookings_from_file sample_files "plain.txt" init
  /\ exists literal self',
      Py.int_literal literal = None
      /\ load_bookings_from_file sample_files "broken.txt" init
         = (Raise (Exception_ (ValueError_int literal)), self').
Proof.
  destruct malformed_tabular_input as (Hline & Hskip & Hfail). split; [|split].
  - apply (Hline "no tab here" init). left. vm_compute. lia.
  - apply (Hskip sample_files "short.txt" "plain.txt" short_text plain_text
             ["101" +:+ tab +:+ "A1" +:+ newline]
             ("no tab here" +:+ newline)
             ["120" +:+ tab +:+ "A20,C2" +:+ newline] init);
      [reflexivity | reflexivity | reflexivity | reflexivity | vm_compute; lia].
  - apply (Hfail sample_files "broken.txt" broken_text
             ("abc" +:+ tab +:+ "B2" +:+ newline)
             "abc" "B2" [] init);
      [reflexivity | vm_compute; right; left | reflexivity | reflexivity].
Defined.

(** C7: loading from a path where there is no file raises
    [FileNotFoundError]; every other failure of the load, a file that cannot
    be read or a record that cannot be parsed, raises the generic exception,
    which is not a [FileNotFoundError]. *)
Theorem missing_file_is_distinguished fs file_path self :
  (fs file_path = Absent ->
   load_bookings_from_file fs file_path self
   = (Raise (FileNotFoundError ("Booking file not found: " +:+ file_path)), init))
  /\ (fs file_path <> Absent ->
      forall e self',
        load_bookings_from_file fs file_path self = (Raise e, self') ->
        (exists cause, e = Exception_ cause)
        /\ forall msg, e <> FileNotFoundError msg).
Proof.
  rewrite load_bookings_from_file_cases. split.
  - by intros ->.
  - intros Hpresent e self'. destruct (fs file_path) as [| k | text]; [done| |].
    + intros [= <- <-]. split; [by eexists | done].
    + destruct (for_each load_line (records text) init) as [[[]|e0] s]; [done|].
      intros [= <- <-]. split; [by eexists | done].
Qed.

Lemma missing_file_is_distinguished_witness :
  load_bookings_from_file sample_files "nowhere.txt" init
  = (Raise (FileNotFoundError "Booking file not found: nowhere.txt"), init)
  /\ (exists cause, Exception_ (IOFailure PermissionError) = Exception_ cause)
  /\ (exists cause, Exception_ (ValueError_int "abc") = Exception_ cause).
Proof.
  split; [|split].
  - apply (proj1 (missing_file_is_distinguished sample_files "nowhere.txt" init)).
    reflexivity.
  - apply (proj2 (missing_file_is_distinguished sample_files "locked.txt" init)
             ltac:(discriminate) _ init).
    reflexivity.
  - apply (proj2 (missing_file_is_distinguished sample_files "broken.txt" init)
             ltac:(discriminate) _
             {| bookings := [{| booking_id := 101; seats := ["A1"]; min_distance := 1 |}] |}).
    reflexivity.
Defined.

(** ** What a load leaves in the collection *)

(** Against C5 as stated: a load that fails on a record keeps the bookings of
    the records before it; the sample file "broken.txt" leaves booking 101
    in the collection, which is then not empty. *)
Lemma failed_load_keeps_earlier_records :
  load_bookings_from_file sample_files "broken.txt" init
  = (Raise (Exception_ (ValueError_int "abc")),
     {| bookings := [{| booking_id := 101; seats := ["A1"]; min_distance := 1 |}] |})
  /\ ~ (forall fs file_path self e self',
          load_bookings_from_file fs file_path self = (Raise e, self') ->
          bookings self' = []).
Proof.
  split; [reflexivity|].
  intros Hcleared.
  specialize (Hcleared sample_files "broken.txt" init _ _ eq_refl).
  discriminate Hcleared.
Qed.

(** C5, as the code has it: each load starts by emptying the collection, so its outcome
    and the collection it leaves are those of the same load on a fresh
    instance, and no booking of a prior load is ever mixed with the new ones;
    a load that fails because no file could be read leaves the collection
    empty; a load that fails on a record leaves the bookings of the records
    before that one. *)
Theorem load_starts_from_empty_collection :
  (forall booking_data self,
      load_bookings_from_data booking_data self
      = load_bookings_from_data booking_data init)
  /\ (forall fs file_path self,
        load_bookings_from_file fs file_path self
        = load_bookings_from_file fs file_path init)
  /\ (forall fs file_path self,
        (forall text, fs file_path <> Readable text) ->
        exists e, load_bookings_from_file fs file_path self = (Raise e, init))
  /\ (forall fs file_path text self e self',
        fs file_path = Readable text ->
        load_bookings_from_file fs file_path self = (Raise e, self') ->
        exists before line after cause,
          records text = before ++ line :: after
          /\ for_each load_line before init = (Return tt, self')
          /\ load_line line self' = (Raise cause, self')
          /\ e = Exception_ cause).
Proof.
  split; [|split; [|split]].
  - intros booking_data self. apply load_bookings_from_data_fresh.
  - intros fs file_path self. by rewrite !load_bookings_from_file_cases.
  - intros fs file_path self Hnone. rewrite load_bookings_from_file_cases.
    destruct (fs file_path) as [| k | text]; [by eexists | by eexists |].
    by destruct (Hnone text).
  - intros fs file_path text self e self' Hfs.
    rewrite load_bookings_from_file_cases, Hfs.
    destruct (for_each load_line (records text) init) as [[[]|cause] s] eqn:Hloop;
      [done|].
    intros [= <- <-].
    apply for_each_raise in Hloop as (before & line & after & mid & Hrec & Hbefore & Hline).
    pose proof Hline as [-> _]%load_line_raise.
    by exists before, line, after, cause.
Qed.

Lemma load_starts_from_empty_collection_witness :
  (exists e, load_bookings_from_file sample_files "nowhere.txt" tie_break_collection
             = (Raise e, init))
  /\ exists before line after cause,
      records broken_text = before ++ line :: after
      /\ for_each load_line before init
         = (Return tt,
            {| bookings := [{| booking_id := 101; seats := ["A1"]; min_distance := 1 |}] |})
      /\ load_line line
           {| bookings := [{| booking_id := 101; seats := ["A1"]; min_distance := 1 |}] |}
         = (Raise cause,
            {| bookings := [{| booking_id := 101; seats := ["A1"]; min_distance := 1 |}] |})
      /\ Exception_ (ValueError_int "abc") = Exception_ cause.
Proof.
  destruct load_starts_from_empty_collection as (_ & _ & Hnone & Hprefix). split.
  - apply (Hnone sample_files "nowhere.txt" tie_break_collection).
    intros text. discriminate.
  - apply (Hprefix sample_files "broken.txt" broken_text tie_break_collection);
      reflexivity.
Defined.

(** ** The model on the scenarios of the repository *)

Example strip_ex : Py.strip "  A1 " = "A1".
Proof. reflexivity. Qed.

Example split_ex :
  Py.split "," "A1,,B2" = ["A1"; ""; "B2"] /\ Py.split "," "" = [""].
Proof. split; reflexivity. Qed.

Example readlines_ex :
  Py.readlines (String "a" (String "013" (String "010" "b")))
  = [String "a" (String "010" ""); "b"].
Proof. reflexivity. Qed.

Example int_literal_ex :
  Py.int_literal " -1_0 " = Some (-10) /\ Py.int_literal "1__0" = None
  /\ Py.int_literal "" = None /\ Py.int_literal "007" = Some 7
  /\ Py.int_literal "abc" = None /\ Py.int_literal "+" = None.
Proof. repeat split; reflexivity. Qed.

(** [int()] does not take the separators 28..31 for white space, although
    [strip()] removes them; it takes the no-break space 160. *)
Example int_literal_space_ex :
  Py.int_literal (String "1" (String "028" "")) = None
  /\ Py.strip (String "1" (String "028" "")) = "1"
  /\ Py.int_literal (String "1" (String "160" "")) = Some 1.
Proof. repeat split; reflexivity. Qed.

(** The limit of [int()]: 4300 digits pass, whatever the sign and the
    underscores, 4301 do not, leading zeros included. *)
Example int_literal_limit_ex :
  is_Some (Py.int_literal (String "-" (Py.mul_str "1_" 4299 +:+ "1")))
  /\ Py.int_literal (Py.mul_str "0" 4301) = None
  /\ Py.int_literal long_seat = None.
Proof.
  split; [|split]; [|vm_compute; reflexivity..].
  assert (exists n, Py.int_literal (String "-" (Py.mul_str "1_" 4299 +:+ "1")) = Some n)
    as [n ->]; [|by eexists].
  vm_compute. by eexists.
Qed.

Example parse_seat_distance_ex :
  map seat_distance ["A1"; "B20"; "C15"; "D5"; "A100"; "Z1"; ""; "ABC"; "X"]
  = [1; 20; 15; 5; 100; 1; 0; 0; 0].
Proof. reflexivity. Qed.

Example basic_scenario :
  (load_bookings_from_data [(101, "A1,B1"); (120, "A20,C2"); (105, "A15,B15")]
   >> generate_boarding_sequence) init
  = (Return [(1, 120); (2, 105); (3, 101)],
     {| bookings :=
          [ {| booking_id := 101; seats := ["A1"; "B1"]; min_distance := 1 |};
            {| booking_id := 120; seats := ["A20"; "C2"]; min_distance := 20 |};
            {| booking_id := 105; seats := ["A15"; "B15"]; min_distance := 15 |} ] |}).
Proof. reflexivity. Qed.

Example tie_break_scenario :
  load_bookings_from_data [(105, "A10,B10"); (101, "A10,C10"); (120, "A20,C2")] init
  = (Return tt, tie_break_collection)
  /\ generate_boarding_sequence tie_break_collection
     = (Return [(1, 120); (2, 101); (3, 105)], tie_break_collection).
Proof. split; reflexivity. Qed.

Example file_scenario :
  ((load_bookings_from_file
     (fun _ =>
        Readable ("Booking_ID" +:+ tab +:+ "Seats" +:+ newline
                  +:+ "101" +:+ tab +:+ "A1,B1" +:+ newline
                  +:+ "120" +:+ tab +:+ "A20,C2" +:+ newline
                  +:+ "105" +:+ tab +:+ "A15,B15" +:+ newline
                  +:+ "130" +:+ tab +:+ "C5,D5"))
     "bookings.txt"
   >> generate_boarding_sequence) init).1
  = Return [(1, 120); (2, 105); (3, 130); (4, 101)].
Proof. reflexivity. Qed.

(** * Further properties of the code *)

(** ** Text of integers *)

Lemma append_cons x (a b : string) : String x a +:+ b = String x (a +:+ b).
Proof. reflexivity. Qed.

Lemma append_assoc (a b c : string) : (a +:+ b) +:+ c = a +:+ (b +:+ c).
Proof. induction a as [|x a IH]; [done|]. rewrite !append_cons. by f_equal. Qed.

Lemma append_nil_r (a : string) : a +:+ "" = a.
Proof. induction a as [|x a IH]; [done|]. rewrite append_cons. by f_equal. Qed.

Lemma append_length (a b : string) :
  String.length (a +:+ b) = (String.length a + String.length b)%nat.
Proof. induction a as [|x a IH]; [done|]. rewrite append_cons. simpl. by rewrite IH. Qed.

Lemma decimal_from_app acc a b :
  decimal_from acc (a +:+ b) = decimal_from (decimal_from acc a) b.
Proof.
  revert acc. induction a as [|x a IH]; intros acc; [done|].
  rewrite append_cons. simpl. apply IH.
Qed.

Lemma all_digits_app a b :
  all_digits (a +:+ b) = all_digits a && all_digits b.
Proof.
  induction a as [|x a IH]; [done|]. rewrite append_cons. simpl.
  rewrite IH. by rewrite andb_assoc.
Qed.

Lemma digit_char_ord d : 0 <= d <= 9 -> Py.ord (Py.digit_char d) = Z.to_N (48 + d).
Proof.
  intros Hd. unfold Py.ord, Py.digit_char. apply N_ascii_embedding. lia.
Qed.

Lemma digit_char_decimal d : 0 <= d <= 9 -> Py.isdecimal (Py.digit_char d) = true.
Proof.
  intros Hd. unfold Py.isdecimal. rewrite digit_char_ord by done.
  apply andb_true_iff. split; apply N.leb_le; lia.
Qed.

Lemma digit_char_value d : 0 <= d <= 9 -> Py.digit_value (Py.digit_char d) = d.
Proof.
  intros Hd. unfold Py.digit_value. rewrite digit_char_ord by done. lia.
Qed.

(** With enough fuel the digits written are those of [n] and no more. *)
Lemma str_digits_spec fuel n acc :
  (0 < fuel)%nat -> 0 <= n < 10 ^ Z.of_nat fuel ->
  exists ds,
    Py.str_digits fuel n acc = ds +:+ acc
    /\ all_digits ds = true /\ ds <> ""
    /\ (forall a, decimal_from a ds = a * 10 ^ Z.of_nat (String.length ds) + n)
    /\ n < 10 ^ Z.of_nat (String.length ds).
Proof.
  revert n acc. induction fuel as [|fuel IH]; intros n acc Hfuel Hn; [lia|].
  assert (0 <= n mod 10 <= 9) as Hd by (pose proof (Z.mod_pos_bound n 10); lia).
  simpl Py.str_digits. destruct (Z.ltb_spec n 10) as [Hsmall|Hbig].
  - exists (String (Py.digit_char (n mod 10)) "").
    split; [reflexivity|]. simpl.
    rewrite digit_char_decimal, digit_char_value by done.
    rewrite Z.mod_small by lia.
    split; [done|]. split; [done|]. split; [intros a; lia | lia].
  - rewrite Nat2Z.inj_succ, Z.pow_succ_r in Hn by lia.
    destruct (IH (n / 10) (String (Py.digit_char (n mod 10)) acc))
      as (ds & Heq & Hall & Hne & Hval & Hlt).
    { destruct fuel; [simpl in Hn|]; lia. }
    { split; [apply Z.div_pos; lia | apply Z.div_lt_upper_bound; lia]. }
    exists (ds +:+ String (Py.digit_char (n mod 10)) "").
    rewrite Heq, append_assoc. split; [done|].
    rewrite all_digits_app, Hall. simpl. rewrite digit_char_decimal by done.
    split; [done|]. split; [by destruct ds|].
    rewrite append_length. simpl String.length.
    replace (Z.of_nat (String.length ds + 1)) with (Z.succ (Z.of_nat (String.length ds)))
      by lia.
    rewrite Z.pow_succ_r by lia. split.
    + intros a. rewrite decimal_from_app, Hval. simpl.
      rewrite digit_char_value by done.
      pose proof (Z.div_mod n 10). lia.
    + pose proof (Z.div_mod n 10). lia.
Qed.

Lemma str_int_fuel n : 0 <= n -> n < 10 ^ Z.of_nat (S (Z.to_nat (Z.log2 n))).
Proof.
  intros Hn. rewrite Nat2Z.inj_succ, Z2Nat.id by apply Z.log2_nonneg.
  destruct (Z.eq_dec n 0) as [->|Hpos]; [done|].
  pose proof (Z.log2_spec n ltac:(lia)) as [_ Hlt].
  pose proof (Z.log2_nonneg n).
  assert (2 ^ Z.succ (Z.log2 n) <= 10 ^ Z.succ (Z.log2 n))
    by (apply Z.pow_le_mono_l; lia).
  lia.
Qed.

(** The text of a natural number: its decimal digits. *)
Lemma str_int_nonneg n :
  0 <= n ->
  all_digits (Py.str_int n) = true /\ Py.str_int n <> ""
  /\ decimal_value (Py.str_int n) = n
  /\ n < 10 ^ Z.of_nat (String.length (Py.str_int n)).
Proof.
  intros Hn. unfold Py.str_int. destruct (Z.ltb_spec n 0); [lia|].
  destruct (str_digits_spec (S (Z.to_nat (Z.log2 n))) n "")
    as (ds & -> & Hall & Hne & Hval & Hlt).
  { lia. }
  { split; [done | by apply str_int_fuel]. }
  rewrite append_nil_r. repeat split; try done.
  unfold decimal_value. rewrite Hval. lia.
Qed.

(** The text of a negative number: a minus sign and the digits of its
    opposite. *)
Lemma str_int_neg n : n < 0 -> Py.str_int n = String "-" (Py.str_int (- n)).
Proof.
  intros Hn. unfold Py.str_int.
  destruct (Z.ltb_spec n 0); [|lia]. by destruct (Z.ltb_spec (- n) 0); [lia|].
Qed.

Lemma rstrip_cons_nonempty c s :
  Py.rstrip s <> "" -> Py.rstrip (String c s) = String c (Py.rstrip s).
Proof. simpl. by destruct (Py.rstrip s). Qed.

Lemma str_digits_length fuel n acc (k : nat) :
  (0 < fuel)%nat -> 0 <= n < 10 ^ Z.of_nat fuel ->
  (0 < k)%nat -> n < 10 ^ Z.of_nat k ->
  (String.length (Py.str_digits fuel n acc) <= k + String.length acc)%nat.
Proof.
  revert n acc k. induction fuel as [|fuel IH]; intros n acc k Hfuel Hn Hk Hnk; [lia|].
  simpl Py.str_digits. destruct (Z.ltb_spec n 10) as [Hsmall|Hbig]; [simpl; lia|].
  destruct k as [|k]; [lia|].
  rewrite Nat2Z.inj_succ, Z.pow_succ_r in Hn, Hnk by lia.
  assert (0 < k)%nat by (destruct k; [simpl in Hnk|]; lia).
  assert (0 < fuel)%nat by (destruct fuel; [simpl in Hn|]; lia).
  etrans; [apply (IH (n / 10) _ k)|]; try done.
  - split; [apply Z.div_pos; lia | apply Z.div_lt_upper_bound; lia].
  - apply Z.div_lt_upper_bound; lia.
  - simpl. lia.
Qed.

(** A natural number below [10 ^ k] is written with [k] digits at most, and
    one that is not below needs more. *)
Lemma str_int_length n (k : nat) :
  0 <= n -> (0 < k)%nat ->
  (n < 10 ^ Z.of_nat k <-> (String.length (Py.str_int n) <= k)%nat).
Proof.
  intros Hn Hk. split.
  - intros Hnk. unfold Py.str_int. destruct (Z.ltb_spec n 0); [lia|].
    pose proof (str_digits_length (S (Z.to_nat (Z.log2 n))) n "" k) as Hlen.
    simpl String.length in Hlen. rewrite Nat.add_0_r in Hlen.
    apply Hlen; [lia | split; [done | by apply str_int_fuel] | done | done].
  - intros Hlen. destruct (str_int_nonneg n Hn) as (_ & _ & _ & Hlt).
    eapply Z.lt_le_trans; [exact Hlt|]. apply Z.pow_le_mono_r; lia.
Qed.

(** The digits in the text of an integer are those of its absolute value. *)
Lemma count_digits_str_int n :
  Py.count_digits (Py.str_int n) = Z.of_nat (String.length (Py.str_int (Z.abs n))).
Proof.
  destruct (Z.lt_ge_cases n 0) as [Hneg|Hpos].
  - rewrite str_int_neg by done. rewrite Z.abs_neq by lia.
    change (Py.count_digits (String "-" (Py.str_int (- n))))
      with (0 + Py.count_digits (Py.str_int (- n))).
    rewrite count_digits_all_digits; [lia|]. apply str_int_nonneg. lia.
  - rewrite Z.abs_eq by lia. apply count_digits_all_digits. by apply str_int_nonneg.
Qed.

(** An integer formats when its text has no more digits than the limit. *)
Lemma formats_iff n :
  formats n <-> Py.count_digits (Py.str_int n) <= Py.int_max_str_digits.
Proof.
  rewrite count_digits_str_int. unfold formats.
  pose proof (str_int_length (Z.abs n) (Z.to_nat Py.int_max_str_digits)
                ltac:(lia) ltac:(unfold Py.int_max_str_digits; lia)) as Hlen.
  rewrite Z2Nat.id in Hlen by (unfold Py.int_max_str_digits; lia).
  rewrite Hlen. unfold Py.int_max_str_digits. lia.
Qed.

(** [int(str(n)) == n], when the text of [n] is within the limit. *)
Lemma int_literal_str_int n :
  Py.int_literal (Py.str_int n)
  = if Py.int_max_str_digits <? Py.count_digits (Py.str_int n) then None else Some n.
Proof.
  destruct (Z.lt_ge_cases n 0) as [Hneg|Hpos].
  - rewrite str_int_neg by done.
    destruct (str_int_nonneg (- n)) as (Hall & Hne & Hval & _); [lia|].
    unfold Py.int_literal.
    change (Py.lstrip_int (String "-" (Py.str_int (- n))))
      with (String "-" (Py.str_int (- n))).
    assert (Py.rstrip_int (String "-" (Py.str_int (- n)))
            = String "-" (Py.str_int (- n))) as ->.
    { simpl. rewrite rstrip_int_digits by done. by destruct (Py.str_int (- n)). }
    change (Ascii.eqb "-" "+") with false. change (Ascii.eqb "-" "-") with true.
    cbv [orb]. cbv zeta.
    change (Py.count_digits (String "-" (Py.str_int (- n))))
      with (0 + Py.count_digits (Py.str_int (- n))).
    rewrite Z.add_0_l. destruct (_ <? _); [done|].
    rewrite int_digits_all_digits by auto.
    fold (decimal_value (Py.str_int (- n))). rewrite Hval. simpl. f_equal. lia.
  - destruct (str_int_nonneg n) as (Hall & Hne & Hval & _); [lia|].
    rewrite int_literal_digits by done.
    rewrite count_digits_all_digits by done. by rewrite Hval.
Qed.

Lemma int_literal_str_int_formats n :
  formats n -> Py.int_literal (Py.str_int n) = Some n.
Proof.
  intros Hn%formats_iff. rewrite int_literal_str_int.
  by destruct (Z.ltb_spec Py.int_max_str_digits (Py.count_digits (Py.str_int n)));
    [lia|].
Qed.

(** [str(n)] returns the text of [n] when [n] formats, and raises else. *)
Lemma str_returns n self : formats n -> str_ n self = (Return (Py.str_int n), self).
Proof.
  intros Hn%formats_iff. unfold str_.
  by destruct (Z.ltb_spec Py.int_max_str_digits (Py.count_digits (Py.str_int n)));
    [lia|].
Qed.

Lemma str_raises n self : ~ formats n -> str_ n self = (Raise (ValueError_str n), self).
Proof.
  intros Hn. unfold str_.
  destruct (Z.ltb_spec Py.int_max_str_digits (Py.count_digits (Py.str_int n)));
    [done|].
  destruct Hn. by apply formats_iff.
Qed.

Lemma str_cases n self :
  (formats n /\ str_ n self = (Return (Py.str_int n), self))
  \/ (~ formats n /\ str_ n self = (Raise (ValueError_str n), self)).
Proof.
  destruct (Z.lt_ge_cases (Z.abs n) (10 ^ Py.int_max_str_digits)) as [Hn|Hn].
  - left. split; [done | by apply str_returns].
  - right. assert (~ formats n) by (unfold formats; lia).
    split; [done | by apply str_raises].
Qed.

(** ** The order does not depend on how the collection is arranged *)

Lemma tuple_le_antisym (a b : Z * Z) :
  Py.tuple_lt b a = false -> Py.tuple_lt a b = false -> a = b.
Proof.
  destruct a as [a1 a2], b as [b1 b2]. unfold Py.tuple_lt. simpl.
  destruct (Z.eqb_spec a1 b1), (Z.eqb_spec b1 a1);
    intros ?%Z.ltb_ge ?%Z.ltb_ge; f_equal; lia.
Qed.

(** The keys of a sorted list are the sorted keys: two arrangements of one
    collection give the same list of keys. *)
Lemma sorted_keys_unique {A : Type} (key : A -> Z * Z) (l1 l2 : list A) :
  l1 ≡ₚ l2 -> key <$> Py.sorted key l1 = key <$> Py.sorted key l2.
Proof.
  intros Hperm.
  apply (StronglySorted_unique_strong (fun a b => Py.tuple_lt b a = false)).
  - intros a b _ _. apply tuple_le_antisym.
  - eapply StronglySorted_fmap; [|apply sorted_strongly]. by intros x y.
  - eapply StronglySorted_fmap; [|apply sorted_strongly]. by intros x y.
  - apply fmap_Permutation. by rewrite !sorted_perm.
Qed.

Lemma sequence_of_keys (l : list Booking) start :
  map (fun '(i, booking) => (i, booking_id booking)) (Py.enumerate start l)
  = Py.enumerate start (snd <$> (sort_key <$> l)).
Proof.
  revert start. induction l as [|b l IH]; intros start; simpl; [done|].
  by rewrite IH.
Qed.

(** X1: the result of the ordering operation depends only on which bookings
    are in the collection and how often, not on their order in it, whether
    or not identifiers repeat. *)
Theorem generate_boarding_sequence_permutation self1 self2 :
  bookings self1 ≡ₚ bookings self2 ->
  (generate_boarding_sequence self1).1 = (generate_boarding_sequence self2).1.
Proof.
  intros Hperm. rewrite !generate_boarding_sequence_returns. simpl.
  rewrite !sequence_of_keys. unfold sorted_bookings.
  by rewrite (sorted_keys_unique sort_key _ _ Hperm).
Qed.

Lemma generate_boarding_sequence_permutation_witness :
  (generate_boarding_sequence tie_break_collection).1
  = (generate_boarding_sequence
       {| bookings := reverse (bookings tie_break_collection) |}).1.
Proof.
  apply (generate_boarding_sequence_permutation tie_break_collection
           {| bookings := reverse (bookings tie_break_collection) |}).
  simpl. symmetry. apply reverse_Permutation.
Defined.

(** ** The details operation on any collection *)

Lemma booking_dict_app (l1 l2 : list Booking) (d : gmap Z Booking) :
  foldl (fun d b => <[booking_id b := b]> d) d (l1 ++ l2)
  = foldl (fun d b => <[booking_id b := b]> d)
      (foldl (fun d b => <[booking_id b := b]> d) d l1) l2.
Proof. apply foldl_app. Qed.

(** The dictionary of line 139 keeps, for an identifier, the last booking of
    the collection that carries it. *)
Lemma booking_dict_last (before after : list Booking) b (d : gmap Z Booking) :
  booking_id b ∉ map booking_id after ->
  foldl (fun d b => <[booking_id b := b]> d) d (before ++ b :: after) !! booking_id b
  = Some b.
Proof.
  intros Hlast. rewrite booking_dict_app. simpl.
  rewrite booking_dict_other by done. apply lookup_insert_eq.
Qed.

Lemma last_occurrence (bs : list Booking) k :
  k ∈ map booking_id bs ->
  exists before b after,
    bs = before ++ b :: after /\ booking_id b = k /\ k ∉ map booking_id after.
Proof.
  induction bs as [|x bs IH]; simpl; intros Hk; [by apply elem_of_nil in Hk|].
  destruct (decide (k ∈ map booking_id bs)) as [Hin|Hout].
  - destruct (IH Hin) as (before & b & after & -> & Hb & Hafter).
    by exists (x :: before), b, after.
  - apply elem_of_cons in Hk as [Hk|Hk]; [|done].
    by exists [], x, bs.
Qed.

Lemma details_of_any_sequence (d : gmap Z Booking) (pick : Z -> Booking)
    (l : list (Z * Z)) self :
  (forall i k, (i, k) ∈ l -> d !! k = Some (pick k)) ->
  comprehension
    (fun '(seq_num, booking_id) =>
       let! booking := getitem d booking_id in
       ret {| Detail.sequence := seq_num;
              Detail.booking_id := booking_id;
              Detail.seats := seats booking;
              Detail.furthest_seat_distance := min_distance booking |})
    l self
  = (Return
       (map (fun '(i, k) =>
               {| Detail.sequence := i;
                  Detail.booking_id := k;
                  Detail.seats := seats (pick k);
                  Detail.furthest_seat_distance := min_distance (pick k) |}) l),
     self).
Proof.
  induction l as [|[i k] l IH]; intros Hd; simpl; [done|].
  unfold bind, getitem, ret in *.
  rewrite (Hd i k) by left.
  by rewrite (IH (fun j c Hc => Hd j c (list_elem_of_further _ _ _ Hc))).
Qed.

(** X2: the details operation returns for every collection, never missing a
    key of its dictionary; its entries carry the sequence numbers and
    identifiers of the ordering operation, in the same order.  The seats and
    the distance of an entry are those of the last booking of the collection
    with the entry's identifier: when identifiers repeat, every entry with a
    repeated identifier shows that last booking. *)
Theorem get_boarding_details_last_booking self :
  exists sequence details,
    generate_boarding_sequence self = (Return sequence, self)
    /\ get_boarding_details self = (Return details, self)
    /\ map (fun d => (Detail.sequence d, Detail.booking_id d)) details = sequence
    /\ Forall
         (fun d =>
            exists before b after,
              bookings self = before ++ b :: after
              /\ booking_id b = Detail.booking_id d
              /\ (Detail.booking_id d ∉ map booking_id after)
              /\ Detail.seats d = seats b
              /\ Detail.furthest_seat_distance d = min_distance b)
         details.
Proof.
  set (dict := foldl (fun d b => <[booking_id b := b]> d) (∅ : gmap Z Booking)
                 (bookings self)).
  set (pick := fun k => default {| booking_id := k; seats := []; min_distance := 0 |}
                          (dict !! k)).
  assert (forall i k,
             (i, k) ∈ map (fun '(i, booking) => (i, booking_id booking))
                        (Py.enumerate 1 (sorted_bookings self)) ->
             exists before b after,
               bookings self = before ++ b :: after
               /\ booking_id b = k /\ (k ∉ map booking_id after)
               /\ dict !! k = Some b) as Hkeys.
  { intros i k Hik. change map with (@fmap list _) in Hik.
    apply list_elem_of_fmap in Hik as ([j b] & [= -> ->] & Hb).
    apply enumerate_elem_of in Hb. unfold sorted_bookings in Hb.
    rewrite sorted_perm in Hb.
    destruct (last_occurrence (bookings self) (booking_id b)) as
      (before & b' & after & Heq & Hid & Hafter).
    { change map with (@fmap list _). by apply list_elem_of_fmap_2. }
    exists before, b', after. repeat split; try done.
    unfold dict. rewrite Heq, <- Hid. apply booking_dict_last. by rewrite Hid. }
  do 2 eexists. split; [apply generate_boarding_sequence_returns|]. split; [|split].
  - unfold get_boarding_details. unfold bind at 1.
    rewrite generate_boarding_sequence_returns.
    unfold bind at 1. unfold get_bookings. fold dict.
    apply (details_of_any_sequence dict pick).
    intros i k Hik. destruct (Hkeys i k Hik) as (_ & b & _ & _ & _ & _ & Hb).
    unfold pick. by rewrite Hb.
  - rewrite map_map. rewrite <- (map_id (map _ (Py.enumerate _ _))) at 2.
    apply map_ext. by intros [i k].
  - apply Forall_forall. intros d Hd. change map with (@fmap list _) in Hd.
    apply list_elem_of_fmap in Hd as ([i k] & -> & Hik). simpl.
    destruct (Hkeys i k Hik) as (before & b & after & Heq & Hid & Hafter & Hb).
    exists before, b, after. unfold pick. rewrite Hb. by simpl.
Qed.

(** ** What the loaders put in the collection *)

(** Every booking of the collection after a load, from data or from a file
    and however the load ends, was built by [booking_of]. *)
Lemma loaded_from_data booking_data self b :
  b ∈ bookings (load_bookings_from_data booking_data self).2 ->
  exists i s, b = booking_of i s.
Proof.
  intros Hb. pose proof (load_bookings_from_data_built booking_data self) as Hall.
  rewrite Forall_forall in Hall. destruct (Hall b Hb) as (i & s & _ & ->). eauto.
Qed.

Lemma loaded_from_file fs file_path self b :
  b ∈ bookings (load_bookings_from_file fs file_path self).2 ->
  exists i s, b = booking_of i s.
Proof.
  intros Hb. pose proof (load_bookings_from_file_built fs file_path self) as Hall.
  rewrite Forall_forall in Hall. destruct (Hall b Hb) as (i & s & _ & ->). eauto.
Qed.

Lemma lstrip_head s c r : Py.lstrip s = String c r -> Py.isspace c = false.
Proof.
  induction s as [|d s IH]; simpl; [done|].
  destruct (Py.isspace d) eqn:Hd; [done|]. by intros [= <- _].
Qed.

Lemma rstrip_idempotent s : Py.rstrip (Py.rstrip s) = Py.rstrip s.
Proof.
  induction s as [|c s IH]; simpl; [done|].
  destruct (Py.rstrip s) as [|d r] eqn:Hr.
  - destruct (Py.isspace c) eqn:Hc; simpl; [done | by rewrite Hc].
  - change (Py.rstrip (String c (String d r)))
      with (match Py.rstrip (String d r) with
            | EmptyString => if Py.isspace c then EmptyString else String c EmptyString
            | r' => String c r'
            end).
    by rewrite IH.
Qed.

Lemma rstrip_head c s :
  Py.isspace c = false -> exists r, Py.rstrip (String c s) = String c r.
Proof.
  intros Hc. simpl. destruct (Py.rstrip s); rewrite ?Hc; eauto.
Qed.

(** [s.strip().strip() == s.strip()] *)
Lemma strip_idempotent s : Py.strip (Py.strip s) = Py.strip s.
Proof.
  unfold Py.strip. destruct (Py.lstrip s) as [|c t] eqn:Hl; [done|].
  pose proof (lstrip_head _ _ _ Hl) as Hc.
  destruct (rstrip_head c t Hc) as [r Hr].
  rewrite Hr. simpl Py.lstrip. rewrite Hc, <- Hr. apply rstrip_idempotent.
Qed.

Lemma split_no_separator sep s :
  Forall (fun t => occurrences sep t = 0%nat) (Py.split sep s).
Proof.
  induction s as [|c s IH]; simpl; [by repeat constructor|].
  destruct (Ascii.eqb c sep) eqn:Hc; [by constructor|].
  destruct (Py.split sep s) as [|t ts]; [repeat constructor; simpl; by rewrite Hc|].
  apply Forall_cons in IH as [Ht Hts]. constructor; [|done].
  simpl. by rewrite Hc, Ht.
Qed.

Lemma occurrences_strip c s : (occurrences c (Py.strip s) <= occurrences c s)%nat.
Proof.
  unfold Py.strip. pose proof (occurrences_rstrip c (Py.lstrip s)).
  pose proof (occurrences_lstrip c s). lia.
Qed.

Lemma priority_of_nonneg seats : 0 <= priority_of seats.
Proof.
  unfold priority_of. destruct (map seat_distance seats) as [|d ds] eqn:Hmap; [done|].
  destruct (foldl_max_is_maximum d ds) as [_ Hmax].
  apply Forall_cons in Hmax as [Hd _].
  assert (0 <= d); [|lia].
  destruct seats as [|seat seats]; [done|]. injection Hmap as <- _.
  apply seat_distance_nonneg.
Qed.

(** X3: every booking found in the collection after a load, from data or
    from a file and whether or not the load failed, has a priority that is
    not negative and at least one seat, and each of its seat labels is
    trimmed of white space and has no comma. *)
Theorem loaded_bookings_are_normalised b :
  (exists booking_data self,
      b ∈ bookings (load_bookings_from_data booking_data self).2)
  \/ (exists fs file_path self,
        b ∈ bookings (load_bookings_from_file fs file_path self).2) ->
  0 <= min_distance b
  /\ seats b <> []
  /\ Forall (fun seat => Py.strip seat = seat /\ occurrences "," seat = 0%nat) (seats b).
Proof.
  intros Hb.
  assert (exists i s, b = booking_of i s) as (i & s & ->).
  { destruct Hb as [(booking_data & self & Hb) | (fs & file_path & self & Hb)];
      [by eapply loaded_from_data | by eapply loaded_from_file]. }
  unfold booking_of. simpl. split; [apply priority_of_nonneg|]. split.
  - pose proof (split_nonempty "," s). by destruct (Py.split "," s).
  - apply Forall_fmap. eapply Forall_impl; [apply (split_no_separator "," s)|].
    intros t Ht. simpl in *. split; [apply strip_idempotent|].
    pose proof (occurrences_strip "," t). lia.
Qed.

Lemma loaded_bookings_are_normalised_witness :
  0 <= min_distance {| booking_id := 120; seats := ["A20"; "C2"]; min_distance := 20 |}
  /\ seats {| booking_id := 120; seats := ["A20"; "C2"]; min_distance := 20 |} <> []
  /\ Forall (fun seat => Py.strip seat = seat /\ occurrences "," seat = 0%nat)
       (seats {| booking_id := 120; seats := ["A20"; "C2"]; min_distance := 20 |}).
Proof.
  apply (loaded_bookings_are_normalised
           {| booking_id := 120; seats := ["A20"; "C2"]; min_distance := 20 |}).
  right. exists sample_files, "plain.txt", init. vm_compute. right. left.
Defined.

(** ** The priority reduction and the order of the seats *)

Lemma is_maximum_unique m1 m2 l1 l2 :
  l1 ≡ₚ l2 -> is_maximum m1 l1 -> is_maximum m2 l2 -> m1 = m2.
Proof.
  intros Hperm [Hin1 Hall1] [Hin2 Hall2].
  rewrite Forall_forall in Hall1, Hall2.
  rewrite Hperm in Hin1. rewrite <- Hperm in Hin2.
  specialize (Hall1 m2 Hin2). specialize (Hall2 m1 Hin1). lia.
Qed.

Lemma furthest_distance_Return seats m self self' :
  furthest_distance seats self = (Return m, self') ->
  forallb within_limit seats = true /\ m = priority_of seats.
Proof.
  destruct (forallb within_limit seats) eqn:Hall.
  - rewrite furthest_distance_returns by done. by intros [= <- _].
  - by destruct (furthest_distance_raises seats self Hall) as (run & _ & ->).
Qed.

Lemma priority_of_permutation seats1 seats2 :
  seats1 ≡ₚ seats2 -> priority_of seats1 = priority_of seats2.
Proof.
  intros Hperm. unfold priority_of.
  pose proof (fmap_Permutation seat_distance _ _ Hperm) as Hds.
  change (@fmap list _) with map in Hds.
  destruct (map seat_distance seats1) as [|d1 ds1] eqn:H1,
           (map seat_distance seats2) as [|d2 ds2] eqn:H2; try done.
  - by apply Permutation_nil_cons in Hds.
  - symmetry in Hds. by apply Permutation_nil_cons in Hds.
  - eapply is_maximum_unique; [exact Hds | apply foldl_max_is_maximum..].
Qed.

Lemma priority_of_app seats more : priority_of seats <= priority_of (seats ++ more).
Proof.
  unfold priority_of. rewrite map_app.
  destruct (map seat_distance seats) as [|d ds] eqn:H1; simpl.
  - pose proof (priority_of_nonneg more) as Hmore. by unfold priority_of in Hmore.
  - destruct (foldl_max_is_maximum d (ds ++ map seat_distance more)) as [_ Hall].
    destruct (foldl_max_is_maximum d ds) as [Hin _].
    rewrite Forall_forall in Hall. apply Hall.
    rewrite app_comm_cons. apply elem_of_app. by left.
Qed.

(** X4: when the reduction returns a priority for a seat list, it returns
    the same priority for the seats in any other order, and whatever it
    returns for the list with further seats appended is not lower. *)
Theorem furthest_distance_order_and_growth seats1 seats2 more m1 self :
  seats1 ≡ₚ seats2 ->
  furthest_distance seats1 self = (Return m1, self) ->
  furthest_distance seats2 self = (Return m1, self)
  /\ forall m2,
      furthest_distance (seats1 ++ more) self = (Return m2, self) -> m1 <= m2.
Proof.
  intros Hperm [Hall ->]%furthest_distance_Return. split.
  - rewrite furthest_distance_returns.
    + by rewrite (priority_of_permutation _ _ Hperm).
    + apply forallb_forall. rewrite forallb_forall in Hall.
      intros seat Hseat. apply Hall. by rewrite Hperm.
  - intros m2 [_ ->]%furthest_distance_Return. apply priority_of_app.
Qed.

Lemma furthest_distance_order_and_growth_witness :
  furthest_distance ["C2"; "A20"] init = (Return 20, init)
  /\ forall m2,
      furthest_distance (["A20"; "C2"] ++ ["B31"]) init = (Return m2, init) -> 20 <= m2.
Proof.
  apply (furthest_distance_order_and_growth ["A20"; "C2"] ["C2"; "A20"] ["B31"] 20 init).
  - apply Permutation_swap.
  - reflexivity.
Defined.

(** ** Lines of a text *)

Lemma translate_newlines_app l rest :
  occurrences "013" l = 0%nat ->
  Py.translate_newlines (l +:+ rest) = l +:+ Py.translate_newlines rest.
Proof.
  induction l as [|c l IH]; [done|]. rewrite !append_cons. simpl.
  destruct (Ascii.eqb c "013") eqn:Hc; [done|]. intros Hl.
  f_equal. by apply IH.
Qed.

Lemma keepends_line l rest :
  occurrences "010" l = 0%nat ->
  Py.keepends (l +:+ String "010" rest) = (l +:+ String "010" "") :: Py.keepends rest.
Proof.
  induction l as [|c l IH]; [done|]. rewrite !append_cons. simpl.
  destruct (Ascii.eqb c "010") eqn:Hc; [done|]. intros Hl.
  by rewrite (IH Hl).
Qed.

(** The first line of a text, when it holds neither a line feed nor a
    carriage return before its end. *)
Lemma readlines_line l rest :
  occurrences "013" l = 0%nat -> occurrences "010" l = 0%nat ->
  Py.readlines (l +:+ String "010" rest) = (l +:+ String "010" "") :: Py.readlines rest.
Proof.
  intros Hcr Hlf. unfold Py.readlines.
  rewrite translate_newlines_app by done.
  change (Py.translate_newlines (String "010" rest))
    with (String "010" (Py.translate_newlines rest)).
  by apply keepends_line.
Qed.

Lemma prefix_app needle hay more :
  String.prefix needle hay = true -> String.prefix needle (hay +:+ more) = true.
Proof.
  revert hay. induction needle as [|c needle IH]; intros hay;
    [by destruct (hay +:+ more)|].
  destruct hay as [|d hay]; [done|]. rewrite append_cons. simpl.
  destruct (ascii_dec c d); [apply IH | done].
Qed.

Lemma contains_app needle hay more :
  Py.contains needle hay = true -> Py.contains needle (hay +:+ more) = true.
Proof.
  induction hay as [|d hay IH].
  - simpl. rewrite orb_false_r. intros H. destruct more; simpl.
    + by rewrite H.
    + destruct needle; [done | simpl in H; done].
  - rewrite append_cons. simpl.
    intros [H|H]%orb_true_iff; apply orb_true_iff.
    + left. by apply (prefix_app needle (String d hay) more).
    + right. by apply IH.
Qed.

(** X5: the header is optional.  A file that begins with a line holding
    "Booking_ID" loads exactly as the file made of what follows that line,
    provided the first of the following lines does not hold "Booking_ID"
    itself: same outcome, same collection. *)
Theorem header_line_is_optional fs path1 path2 header body self :
  fs path1 = Readable (header +:+ String "010" body) ->
  fs path2 = Readable body ->
  Py.contains "Booking_ID" header = true ->
  occurrences "010" header = 0%nat ->
  occurrences "013" header = 0%nat ->
  start_idx (Py.readlines body) = 0%nat ->
  load_bookings_from_file fs path1 self = load_bookings_from_file fs path2 self.
Proof.
  intros H1 H2 Hheader Hlf Hcr Hbody.
  rewrite !load_bookings_from_file_cases, H1, H2.
  assert (records (header +:+ String "010" body) = records body) as ->; [|done].
  unfold records. rewrite readlines_line by done. rewrite Hbody.
  unfold start_idx. by rewrite (contains_app _ _ _ Hheader).
Qed.

Lemma header_line_is_optional_witness :
  load_bookings_from_file
    (fun p => if String.eqb p "with_header.txt"
              then Readable ("Booking_ID" +:+ tab +:+ "Seats" +:+ String "010" plain_text)
              else sample_files p)
    "with_header.txt" init
  = load_bookings_from_file
      (fun p => if String.eqb p "with_header.txt"
                then Readable ("Booking_ID" +:+ tab +:+ "Seats" +:+ String "010" plain_text)
                else sample_files p)
      "plain.txt" init.
Proof.
  apply (header_line_is_optional _ "with_header.txt" "plain.txt"
           ("Booking_ID" +:+ tab +:+ "Seats") plain_text init); reflexivity.
Defined.

(** ** Stripping and splitting *)

Lemma rstrip_empty_iff s : Py.rstrip s = "" <-> all_space s = true.
Proof.
  induction s as [|c s IH]; simpl; [done|].
  destruct (Py.rstrip s) as [|d r] eqn:Hr.
  - destruct (Py.isspace c); simpl; [|done].
    split; [intros _; by apply IH | done].
  - split; [done|]. intros [_ Hs]%andb_true_iff. by apply IH in Hs.
Qed.

Lemma lstrip_all_space s : all_space s = true -> Py.lstrip s = "".
Proof.
  induction s as [|c s IH]; simpl; [done|].
  intros [Hc Hs]%andb_true_iff. rewrite Hc. by apply IH.
Qed.

Lemma rstrip_app a b : Py.rstrip b <> "" -> Py.rstrip (a +:+ b) = a +:+ Py.rstrip b.
Proof.
  intros Hb. induction a as [|c a IH]; [done|]. rewrite !append_cons.
  rewrite rstrip_cons_nonempty; [by rewrite IH|].
  rewrite IH. by destruct a.
Qed.

Lemma rstrip_newline s : Py.rstrip (s +:+ String "010" "") = Py.rstrip s.
Proof.
  induction s as [|c s IH]; [done|]. rewrite append_cons. simpl. by rewrite IH.
Qed.

(** Stripping on the left and on the right commute. *)
Lemma lstrip_rstrip s : Py.lstrip (Py.rstrip s) = Py.rstrip (Py.lstrip s).
Proof.
  induction s as [|c s IH]; [done|].
  destruct (Py.isspace c) eqn:Hc.
  - simpl Py.lstrip at 2. rewrite Hc, <- IH. simpl.
    destruct (Py.rstrip s) as [|d r]; rewrite ?Hc; [done|]. simpl. by rewrite Hc.
  - simpl Py.lstrip at 2. rewrite Hc.
    destruct (rstrip_head c s Hc) as [r ->]. simpl. by rewrite Hc.
Qed.

Lemma strip_rstrip s : Py.strip (Py.rstrip s) = Py.strip s.
Proof.
  unfold Py.strip. by rewrite lstrip_rstrip, rstrip_idempotent.
Qed.

Lemma split_single sep s t : Py.split sep s = [t] -> t = s.
Proof.
  revert t. induction s as [|c s IH]; intros t; simpl; [by intros [= <-]|].
  destruct (Ascii.eqb c sep).
  - intros [= _ H]. by apply split_nonempty in H.
  - destruct (Py.split sep s) as [|h [|h' ts]] eqn:Hsplit;
      [by apply split_nonempty in Hsplit | | done].
    intros [= <-]. f_equal. by apply IH.
Qed.

Lemma split_no_occurrence sep s : occurrences sep s = 0%nat -> Py.split sep s = [s].
Proof.
  induction s as [|c s IH]; simpl; [done|].
  destruct (Ascii.eqb c sep); [done|]. intros Hs. by rewrite (IH Hs).
Qed.

Lemma split_app sep a b :
  occurrences sep a = 0%nat ->
  Py.split sep (a +:+ String sep b) = a :: Py.split sep b.
Proof.
  induction a as [|c a IH]; [simpl; by rewrite Ascii.eqb_refl|].
  rewrite append_cons. simpl. destruct (Ascii.eqb c sep); [done|].
  intros Ha. by rewrite (IH Ha).
Qed.

Lemma split_cons sep c s :
  Py.split sep (String c s)
  = if Ascii.eqb c sep then "" :: Py.split sep s
    else match Py.split sep s with
         | [] => [String c ""]
         | t :: ts => String c t :: ts
         end.
Proof. reflexivity. Qed.

(** Splitting a string stripped on the right gives the tokens of the string,
    the last one stripped on the right. *)
Lemma split_rstrip sep s :
  Py.isspace sep = false ->
  exists ts t,
    Py.split sep s = ts ++ [t] /\ Py.split sep (Py.rstrip s) = ts ++ [Py.rstrip t].
Proof.
  intros Hsep. induction s as [|c s (ts & t & Hs & Hr)]; [by exists [], ""|].
  destruct (Py.rstrip s) as [|d r] eqn:Hrs.
  - (* what follows [c] is blank *)
    simpl in Hr. destruct ts as [|? [|? ?]]; try done. injection Hr as Hr.
    simpl in Hs. apply split_single in Hs as Ht. subst t.
    simpl. rewrite Hrs, Hs. destruct (Ascii.eqb_spec c sep) as [->|Hc].
    + exists [""], s. rewrite Hsep, Hrs. simpl. by rewrite Ascii.eqb_refl.
    + exists [], (String c s). simpl. rewrite Hrs.
      destruct (Py.isspace c); simpl; [done|].
      by destruct (Ascii.eqb_spec c sep).
  - rewrite <- Hrs in Hr. rewrite rstrip_cons_nonempty by by rewrite Hrs.
    rewrite !split_cons, Hs, Hr.
    destruct (Ascii.eqb c sep).
    + by exists ("" :: ts), t.
    + destruct ts as [|h ts]; simpl.
      * exists [], (String c t). simpl. split; [done|].
        simpl in Hr. apply split_single in Hr. rewrite Hr, Hrs. by rewrite <- Hrs.
      * by exists (String c h :: ts), t.
Qed.

(** The bookings built from a seat string and from the same string stripped
    on the right are the same. *)
Lemma seats_rstrip s :
  map Py.strip (Py.split "," (Py.rstrip s)) = map Py.strip (Py.split "," s).
Proof.
  destruct (split_rstrip "," s eq_refl) as (ts & t & -> & ->).
  by rewrite !map_app, (map_cons _ (Py.rstrip t)), strip_rstrip.
Qed.

Lemma booking_of_rstrip i s : booking_of i (Py.rstrip s) = booking_of i s.
Proof. unfold booking_of. by rewrite seats_rstrip. Qed.

Lemma seats_within_limit_rstrip s :
  seats_within_limit (Py.rstrip s) = seats_within_limit s.
Proof. unfold seats_within_limit. by rewrite seats_rstrip. Qed.

(** ** Files written one record a line *)

Lemma occurrences_app c a b :
  occurrences c (a +:+ b) = (occurrences c a + occurrences c b)%nat.
Proof.
  induction a as [|x a IH]; [done|]. rewrite append_cons. simpl. rewrite IH. lia.
Qed.

Lemma occurrences_digits c s :
  all_digits s = true -> Py.isdecimal c = false -> occurrences c s = 0%nat.
Proof.
  intros Hs Hc. induction s as [|d s IH]; simpl; [done|].
  simpl in Hs. apply andb_true_iff in Hs as [Hd Hs]. rewrite (IH Hs).
  destruct (Ascii.eqb_spec d c) as [->|]; [congruence | done].
Qed.

(** The text of an integer holds digits and at most a minus sign. *)
Lemma occurrences_str_int c n :
  Py.isdecimal c = false -> c <> "-"%char -> occurrences c (Py.str_int n) = 0%nat.
Proof.
  intros Hc Hminus. destruct (Z.lt_ge_cases n 0) as [Hneg|Hpos].
  - rewrite str_int_neg by done.
    change (occurrences c (String "-" (Py.str_int (- n))))
      with ((if Ascii.eqb "-" c then 1 else 0) + occurrences c (Py.str_int (- n)))%nat.
    destruct (Ascii.eqb_spec "-" c) as [<-|]; [done|].
    apply occurrences_digits; [|done]. apply str_int_nonneg. lia.
  - apply occurrences_digits; [|done]. by apply str_int_nonneg.
Qed.

Lemma str_int_head n :
  exists c r, Py.str_int n = String c r /\ Py.isspace c = false
              /\ all_space (Py.str_int n) = false.
Proof.
  destruct (Z.lt_ge_cases n 0) as [Hneg|Hpos].
  - rewrite str_int_neg by done. by exists "-"%char, (Py.str_int (- n)).
  - destruct (str_int_nonneg n Hpos) as (Hall & Hne & _).
    destruct (Py.str_int n) as [|c r]; [done|].
    simpl in Hall. apply andb_true_iff in Hall as [Hc _].
    exists c, r. simpl. by rewrite (isdecimal_not_space c Hc).
Qed.

(** The fields of the line of a record: the text of the identifier, and the
    seat string stripped on the right. *)
Lemma fields_record_line i s :
  fits_in_column s -> fields (record_line i s) = [Py.str_int i; Py.rstrip s].
Proof.
  intros (Hblank & Htab & _ & _).
  assert (Py.rstrip s <> "") as Hr.
  { intros H%rstrip_empty_iff. congruence. }
  unfold fields, record_line, Py.strip.
  destruct (str_int_head i) as (c & r & Hi & Hc & _).
  assert (Py.lstrip (Py.str_int i +:+ String "009" (s +:+ String "010" ""))
          = Py.str_int i +:+ String "009" (s +:+ String "010" "")) as ->.
  { rewrite Hi, append_cons. simpl. by rewrite Hc. }
  change (String "009" (s +:+ String "010" ""))
    with (String "009" "" +:+ (s +:+ String "010" "")).
  rewrite <- append_assoc, rstrip_app by by rewrite rstrip_newline.
  rewrite rstrip_newline, append_assoc.
  change (String "009" "" +:+ Py.rstrip s) with (String "009" (Py.rstrip s)).
  rewrite split_app by by apply occurrences_str_int.
  rewrite split_no_occurrence; [done|].
  pose proof (occurrences_rstrip "009" s). lia.
Qed.

(** What the loop of the file loader does with the line of a record. *)
Lemma load_line_record i s self :
  row_loads (i, s) ->
  load_line (record_line i s) self
  = (Return tt, {| bookings := bookings self ++ [booking_of i s] |}).
Proof.
  intros (Hs & Hi & Hlimit). simpl in *.
  rewrite load_line_fields, fields_record_line, int_literal_str_int_formats by done.
  rewrite add_booking_returns by by rewrite seats_within_limit_rstrip.
  by rewrite booking_of_rstrip.
Qed.

Lemma for_each_load_line_records rows self :
  Forall row_loads rows ->
  for_each load_line (map (fun '(i, s) => record_line i s) rows) self
  = (Return tt,
     {| bookings := bookings self ++ map (fun '(i, s) => booking_of i s) rows |}).
Proof.
  intros Hrows. revert self.
  induction Hrows as [|[i s] rows Hs _ IH]; intros self; simpl.
  - unfold ret. rewrite app_nil_r. by destruct self.
  - unfold bind. rewrite load_line_record by done. rewrite IH. simpl.
    by rewrite <- app_assoc.
Qed.

Lemma readlines_table_text rows :
  Forall (fun '(i, s) => fits_in_column s) rows ->
  Py.readlines (table_text rows) = map (fun '(i, s) => record_line i s) rows.
Proof.
  induction 1 as [|[i s] rows (_ & _ & Hlf & Hcr) _ IH]; [done|].
  simpl. unfold record_line at 1.
  change (String "009" (s +:+ String "010" ""))
    with (String "009" "" +:+ (s +:+ String "010" "")).
  rewrite <- (append_assoc (Py.str_int i)), <- (append_assoc _ s), append_assoc.
  change (String "010" "" +:+ table_text rows) with (String "010" (table_text rows)).
  rewrite readlines_line, IH.
  - f_equal. unfold record_line.
    by rewrite !append_assoc.
  - rewrite !occurrences_app, occurrences_str_int by done. simpl. lia.
  - rewrite !occurrences_app, occurrences_str_int by done. simpl. lia.
Qed.

Lemma row_loads_fits rows :
  Forall row_loads rows -> Forall (fun '(i, s) => fits_in_column s) rows.
Proof. intros H. eapply Forall_impl; [exact H|]. by intros [i s] (? & _). Qed.

Lemma row_loads_within_limit rows :
  Forall row_loads rows -> Forall (fun '(i, s) => seats_within_limit s = true) rows.
Proof. intros H. eapply Forall_impl; [exact H|]. by intros [i s] (_ & _ & ?). Qed.

(** A file of records under a header line loads into the bookings of its
    records. *)
Lemma load_bookings_from_file_table fs file_path header rows self :
  fs file_path = Readable (header +:+ String "010" (table_text rows)) ->
  Py.contains "Booking_ID" header = true ->
  occurrences "010" header = 0%nat ->
  occurrences "013" header = 0%nat ->
  Forall row_loads rows ->
  load_bookings_from_file fs file_path self
  = (Return tt, {| bookings := map (fun '(i, s) => booking_of i s) rows |}).
Proof.
  intros Hfs Hheader Hlf Hcr Hrows.
  rewrite load_bookings_from_file_cases, Hfs.
  unfold records. rewrite readlines_line by done.
  unfold start_idx. rewrite (contains_app _ _ _ Hheader). simpl drop.
  rewrite drop_0, readlines_table_text by by apply row_loads_fits.
  by rewrite for_each_load_line_records.
Qed.

(** X6: the two loaders agree.  A file made of a header line holding
    "Booking_ID" and then one line [identifier, tab, seat string] for each
    pair of a list loads without failure into the very collection that
    loading the list from data builds, as long as, in every pair, the seat
    string fits in a column (not blank, no tab, no line break), the
    identifier is below [10 ^ 4300] in absolute value and no seat label has a
    first run of digits longer than 4300: within these bounds [int()] reads
    every identifier and every seat. *)
Theorem loaders_agree fs file_path header rows self :
  fs file_path = Readable (header +:+ String "010" (table_text rows)) ->
  Py.contains "Booking_ID" header = true ->
  occurrences "010" header = 0%nat ->
  occurrences "013" header = 0%nat ->
  Forall row_loads rows ->
  load_bookings_from_file fs file_path self = load_bookings_from_data rows self
  /\ load_bookings_from_data rows self
     = (Return tt, {| bookings := map (fun '(i, s) => booking_of i s) rows |}).
Proof.
  intros Hfs Hheader Hlf Hcr Hrows.
  rewrite load_bookings_from_data_returns by by apply row_loads_within_limit.
  split; [|done].
  by eapply load_bookings_from_file_table.
Qed.

Lemma loaders_agree_witness :
  load_bookings_from_file
    (fun _ => Readable ("Booking_ID" +:+ tab +:+ "Seats" +:+ String "010"
                          (table_text [(101, "A1,B1"); (120, "A20 , C2 ")])))
    "bookings.txt" init
  = load_bookings_from_data [(101, "A1,B1"); (120, "A20 , C2 ")] init
  /\ load_bookings_from_data [(101, "A1,B1"); (120, "A20 , C2 ")] init
     = (Return tt,
        {| bookings := map (fun '(i, s) => booking_of i s)
                         [(101, "A1,B1"); (120, "A20 , C2 ")] |}).
Proof.
  apply (loaders_agree _ "bookings.txt" ("Booking_ID" +:+ tab +:+ "Seats")
           [(101, "A1,B1"); (120, "A20 , C2 ")] init);
    try reflexivity.
  repeat constructor; vm_compute; reflexivity.
Defined.

(** ** The exported file *)

Lemma rstrip_str_int n : Py.rstrip (Py.str_int n) = Py.str_int n.
Proof.
  destruct (Z.lt_ge_cases n 0) as [Hneg|Hpos].
  - rewrite str_int_neg by done.
    destruct (str_int_nonneg (- n)) as (Hall & Hne & _); [lia|].
    rewrite rstrip_cons_nonempty by by rewrite rstrip_digits.
    by rewrite rstrip_digits.
  - apply rstrip_digits. by apply str_int_nonneg.
Qed.

Lemma str_int_fits n : fits_in_column (Py.str_int n).
Proof.
  split; [by destruct (str_int_head n) as (_ & _ & _ & _ & ?)|].
  repeat split; by apply occurrences_str_int.
Qed.

(** A seat label that is the text of an integer stands at the distance of
    the integer's absolute value. *)
Lemma seat_distance_str_int n : seat_distance (Py.str_int n) = Z.abs n.
Proof.
  assert (forall m, 0 <= m -> seat_distance (Py.str_int m) = m) as Hnonneg.
  { intros m Hm. destruct (str_int_nonneg m Hm) as (Hall & Hne & Hval & _).
    unfold seat_distance.
    rewrite <- (append_nil_r (Py.str_int m)) at 1.
    by rewrite search_digits_run. }
  destruct (Z.lt_ge_cases n 0) as [Hneg|Hpos].
  - rewrite str_int_neg by done.
    change (seat_distance (String "-" (Py.str_int (- n))))
      with (seat_distance (Py.str_int (- n))).
    rewrite Hnonneg; lia.
  - rewrite Hnonneg; lia.
Qed.

Lemma booking_of_str_int k n :
  booking_of k (Py.str_int n)
  = {| booking_id := k; seats := [Py.str_int n]; min_distance := Z.abs n |}.
Proof.
  unfold booking_of.
  rewrite split_no_occurrence by by apply occurrences_str_int.
  assert (Py.strip (Py.str_int n) = Py.str_int n) as Hstrip.
  { unfold Py.strip. destruct (str_int_head n) as (c & r & Hn & Hc & _).
    assert (Py.lstrip (Py.str_int n) = Py.str_int n) as ->
      by (rewrite Hn; simpl; by rewrite Hc).
    apply rstrip_str_int. }
  simpl. rewrite Hstrip. unfold priority_of. simpl.
  by rewrite seat_distance_str_int.
Qed.

Lemma search_digits_str_int n :
  Py.search_digits (Py.str_int n) = Some (Py.str_int (Z.abs n)).
Proof.
  assert (forall m, 0 <= m -> Py.search_digits (Py.str_int m) = Some (Py.str_int m))
    as Hnonneg.
  { intros m Hm. destruct (str_int_nonneg m Hm) as (Hall & Hne & _).
    rewrite <- (append_nil_r (Py.str_int m)) at 1. by rewrite search_digits_run. }
  destruct (Z.lt_ge_cases n 0) as [Hneg|Hpos].
  - rewrite str_int_neg by done. rewrite Z.abs_neq by lia.
    change (Py.search_digits (String "-" (Py.str_int (- n))))
      with (Py.search_digits (Py.str_int (- n))).
    apply Hnonneg. lia.
  - rewrite Z.abs_eq by lia. by apply Hnonneg.
Qed.

Lemma strip_str_int n : Py.strip (Py.str_int n) = Py.str_int n.
Proof.
  unfold Py.strip. destruct (str_int_head n) as (c & r & Hn & Hc & _).
  assert (Py.lstrip (Py.str_int n) = Py.str_int n) as ->
    by (rewrite Hn; simpl; by rewrite Hc).
  apply rstrip_str_int.
Qed.

(** The text of an integer that formats is a seat label that parses. *)
Lemma seats_within_limit_str_int n :
  formats n -> seats_within_limit (Py.str_int n) = true.
Proof.
  intros Hn%formats_iff. unfold seats_within_limit.
  rewrite split_no_occurrence by by apply occurrences_str_int.
  simpl. rewrite strip_str_int, andb_true_r.
  unfold within_limit. rewrite search_digits_str_int.
  rewrite count_digits_str_int in Hn. by apply Z.leb_le.
Qed.

Lemma format_entry_returns k i self :
  formats k -> formats i ->
  format_entry k i self = (Return (record_line k (Py.str_int i)), self).
Proof.
  intros Hk Hi. unfold format_entry, bind. by rewrite !str_returns.
Qed.

Lemma format_entry_raises k i self :
  ~ (formats k /\ formats i) ->
  exists n,
    format_entry k i self = (Raise (ValueError_str n), self)
    /\ ((~ formats k /\ n = k) \/ (formats k /\ ~ formats i /\ n = i)).
Proof.
  intros Hki. unfold format_entry, bind.
  destruct (str_cases k self) as [[Hk ->]|[Hk ->]]; [|by exists k; auto].
  destruct (str_cases i self) as [[Hi ->]|[Hi ->]]; [tauto|].
  exists i. auto.
Qed.

Lemma formats_dec n : formats n \/ ~ formats n.
Proof. unfold formats. lia. Qed.

(** The loop of the export: the lines of the entries it has handled are
    added to the file, in order. *)
Lemma write_entries_spec sequence file self :
  exists handled o,
    write_entries sequence file self
    = ((o, self), file +:+ table_text (map (fun '(k, i) => (k, Py.str_int i)) handled))
    /\ Forall (fun '(k, i) => formats k /\ formats i) handled
    /\ stops_at sequence handled o.
Proof.
  revert file. induction sequence as [|[k i] sequence IH]; intros file.
  - exists [], (Return tt). simpl. rewrite append_nil_r.
    split; [done|]. split; [constructor | by left].
  - simpl. destruct (formats_dec k) as [Hk|Hk]; [destruct (formats_dec i) as [Hi|Hi]|].
    + rewrite format_entry_returns by done.
      destruct (IH (file +:+ record_line k (Py.str_int i)))
        as (handled & o & -> & Hhandled & Hstop).
      exists ((k, i) :: handled), o. simpl. rewrite append_assoc.
      split; [done|]. split; [by constructor|].
      destruct Hstop as [[-> ->]|(k' & i' & rest & n & -> & -> & Hn)]; [by left|].
      right. by exists k', i', rest, n.
    + destruct (format_entry_raises k i self) as (n & -> & Hn); [tauto|].
      exists [], (Raise (ValueError_str n)). simpl. rewrite append_nil_r.
      split; [done|]. split; [constructor|]. right. by exists k, i, sequence, n.
    + destruct (format_entry_raises k i self) as (n & -> & Hn); [tauto|].
      exists [], (Raise (ValueError_str n)). simpl. rewrite append_nil_r.
      split; [done|]. split; [constructor|]. right. by exists k, i, sequence, n.
Qed.

Lemma formatted_rows_load (handled : list (Z * Z)) :
  Forall (fun '(k, i) => formats k /\ formats i) handled ->
  Forall row_loads (map (fun '(k, i) => (k, Py.str_int i)) handled).
Proof.
  intros H. apply Forall_fmap. eapply Forall_impl; [exact H|].
  intros [k i] [Hk Hi]. split; [apply str_int_fits|].
  split; [done | by apply seats_within_limit_str_int].
Qed.

(** X7: what the export does to the file.  When the file cannot be opened,
    the exception of [open] goes to the caller and no file is touched.
    Otherwise the collection is left as it was and the file holds the header
    line followed by one line per entry handled, in the order of the
    ordering operation: all the entries when the export returns (the header
    alone for an empty collection), and when it raises, the entries before
    the first one with a sequence number or an identifier of more than 4300
    digits, on which formatting raises [ValueError].  Each line written has
    exactly two tab-separated fields, from which [int()] gives back the
    sequence number and the identifier. *)
Theorem export_to_file_lines open_w output_path self :
  (forall e, open_w output_path = Some e ->
             export_to_file open_w output_path self = ((Raise e, self), None))
  /\ (open_w output_path = None ->
      exists sequence handled o text,
        generate_boarding_sequence self = (Return sequence, self)
        /\ export_to_file open_w output_path self = ((o, self), Some text)
        /\ stops_at sequence handled o
        /\ Py.readlines text
           = ("Seq" +:+ tab +:+ "Booking_ID" +:+ newline)
             :: map (fun '(k, i) => record_line k (Py.str_int i)) handled
        /\ Forall
             (fun '(k, i) =>
                exists field0 field1,
                  fields (record_line k (Py.str_int i)) = [field0; field1]
                  /\ Py.int_literal field0 = Some k
                  /\ Py.int_literal field1 = Some i)
             handled).
Proof.
  unfold export_to_file. rewrite generate_boarding_sequence_returns. split.
  - by intros e ->.
  - intros ->.
    destruct (write_entries_spec
                (map (fun '(i, booking) => (i, booking_id booking))
                   (Py.enumerate 1 (sorted_bookings self)))
                ("Seq" +:+ String "009" "" +:+ "Booking_ID" +:+ String "010" "") self)
      as (handled & o & -> & Hhandled & Hstop).
    do 4 eexists. split; [done|]. split; [done|]. split; [exact Hstop|]. split.
    + change (("Seq" +:+ String "009" "" +:+ "Booking_ID" +:+ String "010" "")
              +:+ table_text (map (fun '(k, i) => (k, Py.str_int i)) handled))
        with (("Seq" +:+ tab +:+ "Booking_ID")
              +:+ String "010"
                    (table_text (map (fun '(k, i) => (k, Py.str_int i)) handled))).
      rewrite (readlines_line ("Seq" +:+ tab +:+ "Booking_ID")) by done.
      rewrite readlines_table_text by by apply row_loads_fits, formatted_rows_load.
      f_equal. rewrite map_map. apply map_ext. by intros [k i].
    + eapply Forall_impl; [exact Hhandled|]. intros [k i] [Hk Hi].
      exists (Py.str_int k), (Py.str_int i).
      rewrite fields_record_line by apply str_int_fits.
      by rewrite rstrip_str_int, !int_literal_str_int_formats.
Qed.

Lemma export_to_file_lines_witness :
  export_to_file (fun _ => Some (IOFailure PermissionError)) "out.txt" tie_break_collection
  = ((Raise (IOFailure PermissionError), tie_break_collection), None)
  /\ exists sequence handled o text,
      generate_boarding_sequence tie_break_collection
      = (Return sequence, tie_break_collection)
      /\ export_to_file (fun _ => None) "out.txt" tie_break_collection
         = ((o, tie_break_collection), Some text)
      /\ stops_at sequence handled o
      /\ Py.readlines text
         = ("Seq" +:+ tab +:+ "Booking_ID" +:+ newline)
           :: map (fun '(k, i) => record_line k (Py.str_int i)) handled
      /\ Forall
           (fun '(k, i) =>
              exists field0 field1,
                fields (record_line k (Py.str_int i)) = [field0; field1]
                /\ Py.int_literal field0 = Some k
                /\ Py.int_literal field1 = Some i)
           handled.
Proof.
  split.
  - apply (proj1 (export_to_file_lines (fun _ => Some (IOFailure PermissionError))
                    "out.txt" tie_break_collection)).
    reflexivity.
  - apply (proj2 (export_to_file_lines (fun _ => None) "out.txt" tie_break_collection)).
    reflexivity.
Defined.

(** X8: export and load are not inverse.  The file the export writes is one
    the file loader accepts, whatever the collection, but it loads as a new
    collection: one booking per exported entry, in the exported order, whose
    identifier is the entry's sequence number, whose only seat is the text of
    the entry's identifier, and whose priority is the absolute value of that
    identifier. *)
Theorem export_then_load open_w fs path self text self' :
  export_to_file open_w path self = ((Return tt, self), Some text) ->
  fs path = Readable text ->
  exists sequence,
    generate_boarding_sequence self = (Return sequence, self)
    /\ load_bookings_from_file fs path self'
       = (Return tt,
          {| bookings :=
               map (fun '(k, i) =>
                      {| booking_id := k;
                         seats := [Py.str_int i];
                         min_distance := Z.abs i |})
                 sequence |}).
Proof.
  intros Hexport Hfs. eexists.
  split; [apply generate_boarding_sequence_returns|].
  unfold export_to_file in Hexport.
  rewrite generate_boarding_sequence_returns in Hexport.
  destruct (open_w path) as [e|] eqn:Hopen; [done|].
  destruct (write_entries_spec
              (map (fun '(i, booking) => (i, booking_id booking))
                 (Py.enumerate 1 (sorted_bookings self)))
              ("Seq" +:+ String "009" "" +:+ "Booking_ID" +:+ String "010" "") self)
    as (handled & o & Hwrite & Hhandled & Hstop).
  rewrite Hwrite in Hexport. injection Hexport as -> <-.
  destruct Hstop as [[_ ->]|(? & ? & ? & ? & _ & [=] & _)].
  rewrite (load_bookings_from_file_table fs path ("Seq" +:+ tab +:+ "Booking_ID") _ self'
             Hfs eq_refl eq_refl eq_refl (formatted_rows_load _ Hhandled)).
  do 2 f_equal. rewrite map_map. apply map_ext.
  intros [k i]. apply booking_of_str_int.
Qed.

Lemma export_then_load_witness :
  exists sequence,
    generate_boarding_sequence tie_break_collection
    = (Return sequence, tie_break_collection)
    /\ load_bookings_from_file
         (fun _ => Readable ("Seq" +:+ tab +:+ "Booking_ID" +:+ newline
                             +:+ "1" +:+ tab +:+ "120" +:+ newline
                             +:+ "2" +:+ tab +:+ "101" +:+ newline
                             +:+ "3" +:+ tab +:+ "105" +:+ newline))
         "out.txt" init
       = (Return tt,
          {| bookings :=
               map (fun '(k, i) =>
                      {| booking_id := k;
                         seats := [Py.str_int i];
                         min_distance := Z.abs i |})
                 sequence |}).
Proof.
  apply (export_then_load (fun _ => None) _ "out.txt" tie_break_collection
           ("Seq" +:+ tab +:+ "Booking_ID" +:+ newline
            +:+ "1" +:+ tab +:+ "120" +:+ newline
            +:+ "2" +:+ tab +:+ "101" +:+ newline
            +:+ "3" +:+ tab +:+ "105" +:+ newline) init);
    reflexivity.
Defined.

(** ** The printed table *)









(** ** The upload filter *)

Lemma rsplit1_cons sep c s :
  Py.rsplit1 sep (String c s)
  = match Py.rsplit1 sep s with
    | [] => [String c ""]
    | [tail] => if Ascii.eqb c sep then [""; tail] else [String c tail]
    | head :: rest => String c head :: rest
    end.
Proof. reflexivity. Qed.

(** What [rsplit] finds: no separator and the string alone, or the parts
    around the last separator. *)
Lemma rsplit1_cases sep s :
  (occurrences sep s = 0%nat /\ Py.rsplit1 sep s = [s])
  \/ (exists stem ext,
        s = stem +:+ String sep ext /\ occurrences sep ext = 0%nat
        /\ Py.rsplit1 sep s = [stem; ext]).
Proof.
  induction s as [|c s [[Hocc Hs]|(stem & ext & -> & Hext & Hs)]].
  - by left.
  - rewrite rsplit1_cons, Hs. simpl occurrences. rewrite Hocc.
    destruct (Ascii.eqb_spec c sep) as [->|Hc]; [|by left].
    right. by exists "", s.
  - right. exists (String c stem), ext. by rewrite rsplit1_cons, Hs.
Qed.

Lemma rsplit1_app sep stem ext :
  occurrences sep ext = 0%nat ->
  Py.rsplit1 sep (stem +:+ String sep ext) = [stem; ext].
Proof.
  intros Hext. induction stem as [|c stem IH].
  - destruct (rsplit1_cases sep ext) as [[_ Hs]|(stem & ext' & -> & _ & _)].
    + change ("" +:+ String sep ext) with (String sep ext).
      by rewrite rsplit1_cons, Hs, Ascii.eqb_refl.
    + rewrite occurrences_app in Hext. simpl in Hext.
      rewrite Ascii.eqb_refl in Hext. lia.
  - by rewrite append_cons, rsplit1_cons, IH.
Qed.

Lemma contains_char c s :
  Py.contains (String c "") s = negb (occurrences c s =? 0)%nat.
Proof.
  induction s as [|d s IH]; [done|].
  simpl. rewrite IH. destruct (ascii_dec c d) as [->|Hcd].
  - rewrite Ascii.eqb_refl. by destruct s.
  - destruct (Ascii.eqb_spec d c) as [->|]; [done|]. by destruct s.
Qed.

Lemma allowed_extension ext :
  bool_decide (ext ∈ ALLOWED_EXTENSIONS) = true
  <-> ext = "txt" \/ ext = "csv" \/ ext = "tsv".
Proof.
  rewrite bool_decide_eq_true. unfold ALLOWED_EXTENSIONS.
  rewrite !elem_of_union, !elem_of_singleton. tauto.
Qed.

(** X10: the upload filter never fails, and it accepts a file name exactly
    when the name has a dot and what follows its last dot is "txt", "csv" or
    "tsv" in any mix of upper and lower case; nothing needs to stand before
    that dot. *)
Theorem allowed_file_extension filename :
  (exists answer, allowed_file filename = Some answer)
  /\ (allowed_file filename = Some true
      <-> exists stem ext,
          filename = stem +:+ String "." ext
          /\ occurrences "." ext = 0%nat
          /\ (Py.lower ext = "txt" \/ Py.lower ext = "csv" \/ Py.lower ext = "tsv")).
Proof.
  unfold allowed_file.
  change (Py.contains "." filename) with (Py.contains (String "." "") filename).
  rewrite contains_char.
  destruct (rsplit1_cases "." filename) as [[Hocc Hs]|(stem & ext & -> & Hext & Hs)].
  - rewrite Hocc. simpl. split; [by eexists|]. split; [done|].
    intros (stem & ext & -> & _ & _). rewrite occurrences_app in Hocc.
    simpl in Hocc. lia.
  - rewrite occurrences_app. simpl occurrences. rewrite Hs. simpl.
    replace (_ =? 0)%nat with false by (symmetry; apply Nat.eqb_neq; lia).
    simpl. split; [by eexists|]. split.
    + intros [= Hallowed%allowed_extension]. by exists stem, ext.
    + intros (stem' & ext' & Heq & Hext' & Hallowed).
      assert (ext' = ext) as ->.
      { pose proof (rsplit1_app "." stem' ext' Hext') as Hs'.
        rewrite <- Heq, Hs in Hs'. by injection Hs' as _ ->. }
      f_equal. by apply allowed_extension.
Qed.

Lemma allowed_file_extension_witness :
  allowed_file "bookings.old.TXT" = Some true /\ allowed_file ".csv" = Some true.
Proof.
  split.
  - apply (proj2 (allowed_file_extension "bookings.old.TXT")).
    exists "bookings.old", "TXT".
    split; [reflexivity|]. split; [reflexivity|]. left. reflexivity.
  - apply (proj2 (allowed_file_extension ".csv")).
    exists "", "csv".
    split; [reflexivity|]. split; [reflexivity|]. right. left. reflexivity.
Defined.

(** ** From the input pairs to the details *)

(** X11: end to end.  Loading pairs with pairwise distinct identifiers, in
    which no seat label has a first run of digits longer than the 4300
    digits [int()] takes, and asking for the details gives, without failure,
    one entry per pair, numbered 1, 2, ..., n: the entries carry the
    identifiers of the pairs, each with the trimmed seat labels of its own
    pair. *)
Theorem load_then_details booking_data self :
  NoDup (map fst booking_data) ->
  Forall (fun '(i, seats_string) => seats_within_limit seats_string = true)
    booking_data ->
  exists details self',
    (load_bookings_from_data booking_data >> get_boarding_details) self
    = (Return details, self')
    /\ map Detail.sequence details = map Z.of_nat (seq 1 (length booking_data))
    /\ map (fun d => (Detail.booking_id d, Detail.seats d)) details
       ≡ₚ map (fun '(i, s) => (i, map Py.strip (Py.split "," s))) booking_data.
Proof.
  intros Hnodup Hlimit. unfold bind at 1.
  rewrite load_bookings_from_data_returns by done.
  set (loaded := {| bookings := map (fun '(i, s) => booking_of i s) booking_data |}).
  assert (NoDup (map booking_id (bookings loaded))) as Hids.
  { simpl. rewrite map_map.
    by rewrite (map_ext _ fst) by (by intros [i s]). }
  do 2 eexists. split; [by apply get_boarding_details_returns|]. split.
  - rewrite map_map. rewrite (map_ext _ fst) by (by intros [i b]).
    rewrite enumerate_fst. unfold sorted_bookings.
    rewrite (Permutation_length (sorted_perm sort_key (bookings loaded))).
    simpl. rewrite length_map, <- seq_shift, map_map.
    apply map_ext. intros k. lia.
  - rewrite map_map.
    rewrite (map_ext _ (fun p => (booking_id (snd p), seats (snd p))))
      by (by intros [i b]).
    rewrite <- (map_map snd (fun b => (booking_id b, seats b))), enumerate_snd.
    unfold sorted_bookings.
    rewrite (Permutation_map _ (sorted_perm sort_key (bookings loaded))).
    simpl. rewrite map_map.
    by rewrite (map_ext _ (fun '(i, s) => (i, map Py.strip (Py.split "," s))))
      by (by intros [i s]).
Qed.

Lemma load_then_details_witness :
  exists details self',
    (load_bookings_from_data [(105, "A10,B10"); (101, " A10 , C10 ")]
     >> get_boarding_details) init
    = (Return details, self')
    /\ map Detail.sequence details = map Z.of_nat (seq 1 2)
    /\ map (fun d => (Detail.booking_id d, Detail.seats d)) details
       ≡ₚ map (fun '(i, s) => (i, map Py.strip (Py.split "," s)))
            [(105, "A10,B10"); (101, " A10 , C10 ")].
Proof.
  apply (load_then_details [(105, "A10,B10"); (101, " A10 , C10 ")] init).
  - apply (bool_decide_unpack _). vm_compute. exact I.
  - repeat constructor.
Defined.
